(** * Voice emotion detection backend

    A shallow embedding of [backend/audio_processor.py] and
    [backend/main.py], and the properties of the prediction pipeline
    proved about it.

    - Numbers.  The pipeline computes on numpy floating-point arrays.
      Every definition below is written once, over an interface
      [NumOps] of the scalar operations the source uses, so that a
      theorem stated for all instances holds for whichever arithmetic
      runs underneath.  Three instances are given: IEEE binary32
      ([spec_float] at precision 24, the [float32] of the arrays that
      [librosa.load] returns), IEEE binary64 ([float], with NaN and
      infinities, used to run the code) and exact canonical rationals
      ([Qc], used where a law of arithmetic is needed).
    - Libraries.  [librosa] (decoder, MFCC, delta) and the three joblib
      artifacts (classifier, scaler, label encoder) are not code of the
      repository; they are taken as functions that return or raise.
    - Effects.  Python exceptions, the module globals, the temporary
      file and the sequence of library calls are threaded through a
      state-and-exception monad [M]. *)

From Stdlib Require Import String Ascii List Bool ZArith QArith Qround.
From Stdlib Require Import Qcanon Qcabs Lia Uint63.
From Stdlib Require Import Floats.PrimFloat Floats.SpecFloat.
Import ListNotations.

Close Scope Qc_scope.
Close Scope Q_scope.
Open Scope string_scope.
Open Scope list_scope.

Set Implicit Arguments.

(* ================================================================= *)
(** ** Scalars *)

(** The scalar operations of numpy that the two modules apply to array
    elements.  [fltb a b] is the Python comparison [a < b] (false when
    either side is NaN), [fmaximum] is [np.maximum] and [of_Z] the
    conversion of a Python integer. *)
Class NumOps (F : Type) : Type := {
  fzero : F;
  fadd : F -> F -> F;
  fsub : F -> F -> F;
  fmul : F -> F -> F;
  fdiv : F -> F -> F;
  fabs : F -> F;
  fltb : F -> F -> bool;
  fmaximum : F -> F -> F;
  of_Z : Z -> F
}.

(** [np.sqrt], kept apart: only the energy gate and [np.std] need it. *)
Class SqrtOp (F : Type) : Type := fsqrt : F -> F.

(** A decimal literal of the source, such as [0.001]. *)
Definition of_Q {F} `{NumOps F} (q : Q) : F :=
  fdiv (of_Z (Qnum q)) (of_Z (Zpos (Qden q))).

Definition fone {F} `{NumOps F} : F := of_Z 1.

(** *** IEEE binary64 *)

Definition float_of_Z (z : Z) : float :=
  match z with
  | Z0 => PrimFloat.zero
  | Zpos _ => PrimFloat.of_uint63 (Uint63.of_Z z)
  | Zneg p => PrimFloat.opp (PrimFloat.of_uint63 (Uint63.of_Z (Zpos p)))
  end.

(** [np.maximum] propagates NaN. *)
Definition float_maximum (a b : float) : float :=
  if PrimFloat.is_nan a then a
  else if PrimFloat.is_nan b then b
  else if PrimFloat.ltb a b then b else a.

#[export] Instance float_ops : NumOps float := {|
  fzero := PrimFloat.zero;
  fadd := PrimFloat.add;
  fsub := PrimFloat.sub;
  fmul := PrimFloat.mul;
  fdiv := PrimFloat.div;
  fabs := PrimFloat.abs;
  fltb := PrimFloat.ltb;
  fmaximum := float_maximum;
  of_Z := float_of_Z
|}.

#[export] Instance float_sqrt : SqrtOp float := PrimFloat.sqrt.

(** *** Exact rationals *)

Definition Qc_ltb (a b : Qc) : bool :=
  match (a ?= b)%Qc with Lt => true | _ => false end.

Definition Qc_maximum (a b : Qc) : Qc := if Qc_ltb a b then b else a.

#[export] Instance Qc_ops : NumOps Qc := {|
  fzero := Q2Qc 0;
  fadd := Qcplus;
  fsub := Qcminus;
  fmul := Qcmult;
  fdiv := Qcdiv;
  fabs := Qcabs;
  fltb := Qc_ltb;
  fmaximum := Qc_maximum;
  of_Z := fun z => Q2Qc (inject_Z z)
|}.

(** *** IEEE binary32

    [librosa.load] returns a [float32] array, and padding, [np.abs],
    [np.max] and the division of line 46 stay in that type.  A
    [float32] is a [spec_float] that is [valid_binary] at precision 24
    and maximal exponent 128; the operations are those of the IEEE
    specification at that format, rounding to nearest even. *)

Definition float32_of_Z (z : Z) : spec_float :=
  binary_normalize 24 128 z 0 false.

Definition float32_is_nan (x : spec_float) : bool :=
  match x with S754_nan => true | _ => false end.

(** [np.maximum] propagates NaN. *)
Definition float32_maximum (a b : spec_float) : spec_float :=
  if float32_is_nan a then a
  else if float32_is_nan b then b
  else if SFltb a b then b else a.

#[export] Instance float32_ops : NumOps spec_float := {|
  fzero := S754_zero false;
  fadd := SFadd 24 128;
  fsub := SFsub 24 128;
  fmul := SFmul 24 128;
  fdiv := SFdiv 24 128;
  fabs := SFabs;
  fltb := SFltb;
  fmaximum := float32_maximum;
  of_Z := float32_of_Z
|}.

#[export] Instance float32_sqrt : SqrtOp spec_float := SFsqrt 24 128.

(** The number one, [2^23 * 2^-23]. *)
Definition one32 : spec_float := S754_finite false 8388608 (-23).

(** Mantissa and exponent in the position the format prescribes: at
    most 24 bits, and exactly 24 unless the exponent is the least. *)
Definition canonical32 (m e : Z) : Prop :=
  (0 <= m < 2 ^ 24 /\ -149 <= e /\ (e = -149 \/ 2 ^ 23 <= m))%Z.

(** The value [binary_round_aux] builds from a rounded mantissa. *)
Definition pack32 (s : bool) (m e : Z) : spec_float :=
  match m with
  | Z0 => S754_zero s
  | Zpos p => if (e <=? 104)%Z then S754_finite s p e else S754_infinity s
  | Zneg _ => S754_nan
  end.

(** The order of Python's [<] and [<=] on [float32]. *)
Definition le32 (x y : spec_float) : Prop := x = y \/ SFltb x y = true.

Definition at_most_one32 (x : spec_float) : Prop := le32 x one32.

(** What [np.abs] returns on anything but NaN. *)
Definition nonneg32 (x : spec_float) : Prop :=
  match x with
  | S754_zero false | S754_infinity false | S754_finite false _ _ => True
  | _ => False
  end.

(* ================================================================= *)
(** ** Python values and exceptions *)

(** An exception carries what [str(e)] prints.  [HTTPException] is the
    only exception class the source raises by name. *)
Inductive exn : Type :=
| Exception (msg : string)
| HTTPException (status_code : Z) (detail : string).

Definition str (e : exn) : string :=
  match e with
  | Exception msg => msg
  | HTTPException _ detail => detail
  end.

Inductive result (A : Type) : Type :=
| Ok (a : A)
| Raise (e : exn).
Arguments Ok {A} a.
Arguments Raise {A} e.

Definition rbind {A B} (r : result A) (k : A -> result B) : result B :=
  match r with
  | Ok a => k a
  | Raise e => Raise e
  end.

(** [l[0]] *)
Definition index0 {A} (l : list A) : result A :=
  match l with
  | x :: _ => Ok x
  | [] => Raise (Exception "index 0 is out of bounds for axis 0 with size 0")
  end.

(** [l[i]] for a Python or numpy integer [i]: a negative index counts
    from the end, anything outside [-len, len) raises [IndexError]. *)
Definition getitem {A} (l : list A) (i : Z) : result A :=
  let n := Z.of_nat (length l) in
  let j := if (i <? 0)%Z then (i + n)%Z else i in
  if ((0 <=? j) && (j <? n))%Z then
    match nth_error l (Z.to_nat j) with
    | Some x => Ok x
    | None => Raise (Exception "index out of bounds")
    end
  else Raise (Exception "index out of bounds").

(** [s.endswith(suffix)] *)
Definition endswith (s suffix : string) : bool :=
  let n := String.length s in
  let m := String.length suffix in
  (m <=? n)%nat && String.eqb (substring (n - m) m s) suffix.

(** [int(x)] on a float: truncation toward zero. *)
Definition py_int (x : Q) : Z :=
  if Qle_bool 0 x then Qfloor x else Qceiling x.

(** [round(x)] on a float: to nearest, ties to even. *)
Definition py_round (x : Q) : Z :=
  let f := Qfloor x in
  match (x - inject_Z f ?= 1 # 2)%Q with
  | Lt => f
  | Gt => (f + 1)%Z
  | Eq => if Z.even f then f else (f + 1)%Z
  end.

(* ================================================================= *)
(** ** numpy reductions *)

Section Numpy.
Context {F : Type} `{NumOps F} `{SqrtOp F}.

Definition np_sum (a : list F) : F := fold_left fadd a fzero.

(** [np.mean(a)]: the sum over the element count; on an empty array
    that is [0 / 0]. *)
Definition np_mean (a : list F) : F :=
  fdiv (np_sum a) (of_Z (Z.of_nat (length a))).

(** [np.std(a)], with numpy's default [ddof=0]. *)
Definition np_std (a : list F) : F :=
  let mu := np_mean a in
  fsqrt (np_mean (map (fun x => let d := fabs (fsub x mu) in fmul d d) a)).

Definition np_abs (a : list F) : list F := map fabs a.

(** [np.max(a)]: raises [ValueError] on an empty array. *)
Definition np_max (a : list F) : result F :=
  match a with
  | [] => Raise (Exception
      "zero-size array to reduction operation maximum which has no identity")
  | x :: rest => Ok (fold_left fmaximum rest x)
  end.

(** [np.pad(a, (0, n), mode='constant')] *)
Definition np_pad_right (a : list F) (n : nat) : list F :=
  a ++ repeat fzero n.

(** [np.mean(m, axis=1)] and [np.std(m, axis=1)] of a 2-D array given
    as its list of rows. *)
Definition np_mean_axis1 (m : list (list F)) : list F := map np_mean m.
Definition np_std_axis1 (m : list (list F)) : list F := map np_std m.
End Numpy.

(* ================================================================= *)
(** ** External libraries and artifacts *)

(** The three [librosa] entry points the source calls.  Each is a
    function of its arguments that returns or raises:
    - [librosa_decode] is what [librosa.load(path, sr=16000, mono=True)]
      makes of the bytes stored at [path];
    - [librosa_mfcc y sr n_mfcc] is [librosa.feature.mfcc], a 2-D array
      as its list of rows (one per coefficient);
    - [librosa_delta m order] is [librosa.feature.delta]. *)
Class Librosa (F : Type) : Type := {
  librosa_decode : list Byte.byte -> result (list F);
  librosa_mfcc : list F -> Z -> nat -> result (list (list F));
  librosa_delta : list (list F) -> nat -> result (list (list F))
}.

(** The scaler artifact: [scaler.transform(X)] on a 2-D array. *)
Record Scaler (F : Type) : Type := {
  transform : list (list F) -> result (list (list F))
}.

(** The classifier artifact: [model.predict(X)] gives one class index
    per row, [model.predict_proba(X)] one probability vector per row;
    [n_classes] is the number of classes it was fitted on (the length
    of scikit-learn's [model.classes_]), which the source never reads. *)
Record Classifier (F : Type) : Type := {
  n_classes : nat;
  predict : list (list F) -> result (list Z);
  predict_proba : list (list F) -> result (list (list F))
}.

(** The label decoder, a scikit-learn [LabelEncoder]: the ordered class
    labels. *)
Record LabelEncoder : Type := {
  classes_ : list string
}.

(** [label_encoder.inverse_transform(y)]: scikit-learn raises
    [ValueError] when [y] holds an index outside [0, len(classes_))
    and otherwise returns [classes_[y]]. *)
Definition inverse_transform (le : LabelEncoder) (y : list Z)
  : result (list string) :=
  let n := Z.of_nat (length (classes_ le)) in
  if forallb (fun i => ((0 <=? i) && (i <? n))%Z) y then
    Ok (map (fun i => nth (Z.to_nat i) (classes_ le) EmptyString) y)
  else Raise (Exception "y contains previously unseen labels").

(* ================================================================= *)
(** ** State and the monad *)

(** Calls into [librosa] and into the scaler and classifier artifacts,
    in the order they are made. *)
Inductive Event : Type :=
| LibrosaLoad (path : string)
| LibrosaMfcc
| LibrosaDelta (order : nat)
| ScalerTransform
| ModelPredict
| ModelPredictProba.

(** What [joblib.load] makes of the three files under [models/]. *)
Record ModelDir (F : Type) : Type := {
  emotion_classifier_joblib : result (Classifier F);
  label_encoder_joblib : result LabelEncoder;
  scaler_joblib : result (Scaler F)
}.

(** The module globals of [main.py] ([None] until [load_models] ran),
    the file system, the name the operating system gives to the next
    temporary file, and the calls made so far. *)
Record World (F : Type) : Type := {
  model : option (Classifier F);
  label_encoder : option LabelEncoder;
  scaler : option (Scaler F);
  models : ModelDir F;
  files : string -> option (list Byte.byte);
  tmp_name : string;
  calls : list Event
}.

Section Monad.
Context {F : Type}.

Definition M (A : Type) : Type := World F -> result A * World F.

Definition ret {A} (a : A) : M A := fun w => (Ok a, w).

Definition bind {A B} (m : M A) (k : A -> M B) : M B :=
  fun w =>
    match m w with
    | (Ok a, w') => k a w'
    | (Raise e, w') => (Raise e, w')
    end.

Definition raise {A} (e : exn) : M A := fun w => (Raise e, w).

Definition lift {A} (r : result A) : M A := fun w => (r, w).

(** [try: body / except Exception as e: handler(e)] *)
Definition try_except {A} (body : M A) (handler : exn -> M A) : M A :=
  fun w =>
    match body w with
    | (Ok a, w') => (Ok a, w')
    | (Raise e, w') => handler e w'
    end.

Definition record_call (ev : Event) (w : World F) : World F :=
  {| model := model w; label_encoder := label_encoder w;
     scaler := scaler w; models := models w; files := files w;
     tmp_name := tmp_name w; calls := calls w ++ [ev] |}.

(** A library call: recorded, then its result returned or raised. *)
Definition call {A} (ev : Event) (r : result A) : M A :=
  fun w => (r, record_call ev w).

Definition get : M (World F) := fun w => (Ok w, w).

Definition set_files (fs : string -> option (list Byte.byte)) : M unit :=
  fun w =>
    (Ok tt, {| model := model w; label_encoder := label_encoder w;
               scaler := scaler w; models := models w; files := fs;
               tmp_name := tmp_name w; calls := calls w |}).

Definition set_model (c : Classifier F) : M unit :=
  fun w =>
    (Ok tt, {| model := Some c; label_encoder := label_encoder w;
               scaler := scaler w; models := models w; files := files w;
               tmp_name := tmp_name w; calls := calls w |}).

Definition set_label_encoder (le : LabelEncoder) : M unit :=
  fun w =>
    (Ok tt, {| model := model w; label_encoder := Some le;
               scaler := scaler w; models := models w; files := files w;
               tmp_name := tmp_name w; calls := calls w |}).

Definition set_scaler (s : Scaler F) : M unit :=
  fun w =>
    (Ok tt, {| model := model w; label_encoder := label_encoder w;
               scaler := Some s; models := models w; files := files w;
               tmp_name := tmp_name w; calls := calls w |}).

(** [tmp_file.write(content)] on the file at [path]. *)
Definition write_file (path : string) (content : list Byte.byte) : M unit :=
  bind get (fun w =>
    set_files (fun p => if String.eqb p path then Some content
                        else files w p)).

(** [os.path.exists(path)] *)
Definition os_path_exists (path : string) : M bool :=
  bind get (fun w =>
    ret (match files w path with Some _ => true | None => false end)).

(** [os.unlink(path)]: raises [FileNotFoundError] when nothing is
    there. *)
Definition os_unlink (path : string) : M unit :=
  bind get (fun w =>
    match files w path with
    | Some _ =>
        set_files (fun p => if String.eqb p path then None else files w p)
    | None => raise (Exception "No such file or directory")
    end).
End Monad.

Declare Scope monad_scope.
Delimit Scope monad_scope with monad.
Notation "x <- m ;; k" := (bind m (fun x => k))
  (at level 61, m at next level, right associativity) : monad_scope.
Notation "m ;;; k" := (bind m (fun _ => k))
  (at level 61, right associativity) : monad_scope.
Open Scope monad_scope.

(* ================================================================= *)
(** ** [backend/audio_processor.py] *)

Definition SAMPLE_RATE : Z := 16000.
Definition DURATION : Q := 3.5.
Definition N_MFCC : nat := 40.
Definition MIN_AUDIO_ENERGY : Q := 0.001.

(** [int(SAMPLE_RATE * DURATION)]; the product [56000.0] is exact in
    binary64, so it is computed here on rationals. *)
Definition target_length : nat :=
  Z.to_nat (py_int (inject_Z SAMPLE_RATE * DURATION)).

Section AudioProcessor.
Context {F : Type} `{NumOps F} `{SqrtOp F} `{Librosa F}.

(** [librosa.load(file_path, sr=SAMPLE_RATE, mono=True)] *)
Definition librosa_load (file_path : string) : M (list F) :=
  w <- get (F := F) ;;
  match files w file_path with
  | Some bytes => call (LibrosaLoad file_path) (librosa_decode bytes)
  | None => call (LibrosaLoad file_path)
              (Raise (Exception "No such file or directory"))
  end.

(** Line 31: [np.sqrt(np.mean(audio ** 2))]. *)
Definition audio_energy (audio : list F) : F :=
  fsqrt (np_mean (map (fun x => fmul x x) audio)).

(** Lines 39-42: pad or trim to [target_length]. *)
Definition fix_length (audio : list F) : list F :=
  if (length audio <? target_length)%nat
  then np_pad_right audio (target_length - length audio)
  else firstn target_length audio.

(** Lines 45-46: peak normalisation, skipped unless the peak is
    greater than zero.  The source evaluates
    [np.max(np.abs(audio))] once for the test and once more for the
    division. *)
Definition normalize_amplitude (audio : list F) : result (list F) :=
  rbind (np_max (np_abs audio)) (fun peak =>
    if fltb fzero peak then
      rbind (np_max (np_abs audio)) (fun peak' =>
        Ok (map (fun x => fdiv x peak') audio))
    else Ok audio).

(** [preprocess_audio]: [None] is Python's [None].  The handler also
    prints the exception, which has no effect on the result. *)
Definition preprocess_audio (file_path : string) : M (option (list F)) :=
  try_except
    (audio <- librosa_load file_path ;;
     if fltb (audio_energy audio) (of_Q MIN_AUDIO_ENERGY) then ret None
     else
       audio <- lift (normalize_amplitude (fix_length audio)) ;;
       ret (Some audio))
    (fun _ => ret None).

(** [extract_features]: the calls to [librosa.feature] stand outside
    any [try], so what they raise leaves the function. *)
Definition extract_features (file_path : string) : M (option (list F)) :=
  audio <- preprocess_audio file_path ;;
  match audio with
  | None => ret None
  | Some audio =>
      mfccs <- call LibrosaMfcc (librosa_mfcc audio SAMPLE_RATE N_MFCC) ;;
      mfcc_delta <- call (LibrosaDelta 1) (librosa_delta mfccs 1) ;;
      mfcc_delta2 <- call (LibrosaDelta 2) (librosa_delta mfccs 2) ;;
      let mfcc_mean := np_mean_axis1 mfccs in
      let mfcc_std := np_std_axis1 mfccs in
      let delta_mean := np_mean_axis1 mfcc_delta in
      let delta_std := np_std_axis1 mfcc_delta in
      let delta2_mean := np_mean_axis1 mfcc_delta2 in
      let delta2_std := np_std_axis1 mfcc_delta2 in
      let features :=
        mfcc_mean ++ mfcc_std ++ delta_mean ++ delta_std
          ++ delta2_mean ++ delta2_std in
      ret (Some features)
  end.
End AudioProcessor.

(* ================================================================= *)
(** ** [backend/main.py] *)

(** A Python [dict] with string keys, in insertion order: setting a key
    that is present replaces its value in place. *)
Fixpoint dict_set {V} (d : list (string * V)) (k : string) (v : V)
  : list (string * V) :=
  match d with
  | [] => [(k, v)]
  | (k', v') :: rest =>
      if String.eqb k' k then (k', v) :: rest
      else (k', v') :: dict_set rest k v
  end.

Fixpoint dict_get {V} (d : list (string * V)) (k : string) : option V :=
  match d with
  | [] => None
  | (k', v') :: rest => if String.eqb k' k then Some v' else dict_get rest k
  end.

Definition dict_keys {V} (d : list (string * V)) : list string := map fst d.
Definition dict_values {V} (d : list (string * V)) : list V := map snd d.

(** [enumerate(l)], counting from [i]. *)
Fixpoint enumerate {A} (i : Z) (l : list A) : list (Z * A) :=
  match l with
  | [] => []
  | x :: rest => (i, x) :: enumerate (i + 1) rest
  end.

Record PredictionResponse (F : Type) : Type := {
  emotion : string;
  confidence : F;
  all_probabilities : list (string * F);
  valid : bool;
  error : option string
}.

(** The uploaded file: its name and its bytes. *)
Record UploadFile : Type := {
  filename : string;
  content : list Byte.byte
}.

(** Lines 61-62 of [main.py], which run inside the [try] of
    [load_models] once the three globals are assigned: two prints, the
    second of which reads [label_encoder.classes_].  They raise, for
    instance, when the object that was loaded has no such attribute,
    and have no other effect on the state.  The prints of lines 56 and
    65, of constant text and of the exception, are taken to succeed. *)
Class StartupReport : Type := {
  announce : LabelEncoder -> result unit
}.

Section Main.
Context {F : Type} `{NumOps F} `{SqrtOp F} `{Librosa F} `{StartupReport}.

(** [load_models], the startup hook: whatever is raised inside the
    [try] is printed and raised again. *)
Definition load_models : M (F := F) unit :=
  try_except
    (w <- get (F := F) ;;
     m <- lift (emotion_classifier_joblib (models w)) ;;
     set_model m ;;;
     le <- lift (label_encoder_joblib (models w)) ;;
     set_label_encoder le ;;;
     s <- lift (scaler_joblib (models w)) ;;
     set_scaler s ;;;
     lift (announce le) ;;;
     ret tt)
    (fun e => raise e).

(** Lines 154-157: the dict comprehension over
    [enumerate(probabilities)]. *)
Fixpoint all_probs_of (label_encoder : LabelEncoder)
    (items : list (Z * F)) (acc : list (string * F))
  : result (list (string * F)) :=
  match items with
  | [] => Ok acc
  | (i, prob) :: rest =>
      rbind (inverse_transform label_encoder [i]) (fun labels =>
      rbind (index0 labels) (fun label =>
      all_probs_of label_encoder rest (dict_set acc label prob)))
  end.

(** The three failure responses share their payload. *)
Definition failure (msg : string) : PredictionResponse F :=
  {| emotion := EmptyString;
     confidence := fzero;
     all_probabilities := [];
     valid := false;
     error := Some msg |}.

(** [predict_emotion].  Creating and writing the temporary file is
    taken not to fail, so [tmp_file_path] is bound whenever the
    handler runs and the test ['tmp_file_path' in locals()] holds. *)
Definition predict_emotion (file : UploadFile) : M (PredictionResponse F) :=
  w <- get (F := F) ;;
  match model w, label_encoder w, scaler w with
  | Some model, Some label_encoder, Some scaler =>
      if negb (endswith (filename file) ".wav") then
        ret (failure "Invalid file format. Please upload a .wav file")
      else
        let tmp_file_path := (tmp_name w ++ ".wav")%string in
        try_except
          (write_file tmp_file_path (content file) ;;;
           features <- extract_features tmp_file_path ;;
           os_unlink tmp_file_path ;;;
           match features with
           | None =>
               ret (failure
                 "Invalid audio: File is too quiet, corrupted, or not a valid audio format")
           | Some features =>
               let features := [features] in
               features_scaled <-
                 call ScalerTransform (transform scaler features) ;;
               predictions <-
                 call ModelPredict (predict model features_scaled) ;;
               prediction <- lift (index0 predictions) ;;
               probas <-
                 call ModelPredictProba
                   (predict_proba model features_scaled) ;;
               probabilities <- lift (index0 probas) ;;
               emotions <-
                 lift (inverse_transform label_encoder [prediction]) ;;
               emotion <- lift (index0 emotions) ;;
               confidence <- lift (getitem probabilities prediction) ;;
               all_probs <-
                 lift (all_probs_of label_encoder
                         (enumerate 0 probabilities) []) ;;
               ret {| emotion := emotion;
                      confidence := confidence;
                      all_probabilities := all_probs;
                      valid := true;
                      error := None |}
           end)
          (fun e =>
             tmp_exists <- os_path_exists tmp_file_path ;;
             (if tmp_exists then os_unlink tmp_file_path else ret tt) ;;;
             ret (failure ("Processing error: " ++ str e)%string))
  | _, _, _ => raise (HTTPException 500 "Models not loaded")
  end.

(** What a successful response is made of: the answers of the
    classifier and of the label decoder on some scaled features [X]. *)
Definition success_of (model : Classifier F) (label_encoder : LabelEncoder)
    (resp : PredictionResponse F) : Prop :=
  exists X predictions prediction probas probabilities emotions,
    predict model X = Ok predictions
    /\ index0 predictions = Ok prediction
    /\ predict_proba model X = Ok probas
    /\ index0 probas = Ok probabilities
    /\ inverse_transform label_encoder [prediction] = Ok emotions
    /\ index0 emotions = Ok (emotion resp)
    /\ getitem probabilities prediction = Ok (confidence resp)
    /\ all_probs_of label_encoder (enumerate 0 probabilities) []
       = Ok (all_probabilities resp)
    /\ valid resp = true
    /\ error resp = None.
End Main.

(* ================================================================= *)
(** ** A concrete setting to run the code in *)

(** The pipeline is run below on binary64 with stand-ins for what lies
    outside the repository.  The decoder reads unsigned 8-bit samples
    (no bytes at all do not decode); the MFCC stand-in returns [n_mfcc]
    rows and the delta stand-in keeps the shape, as librosa's do. *)
Module Demo.

Definition decode_u8 (bytes : list Byte.byte) : result (list float) :=
  match bytes with
  | [] => Raise (Exception "Error opening file: Format not recognised.")
  | _ =>
      Ok (map (fun b =>
                 PrimFloat.div
                   (PrimFloat.sub (float_of_Z (Z.of_N (Byte.to_N b))) 128)
                   128) bytes)
  end.

#[export] Instance librosa : Librosa float := {|
  librosa_decode := decode_u8;
  librosa_mfcc := fun y _ n_mfcc => Ok (repeat (firstn 4 y) n_mfcc);
  librosa_delta := fun m _ => Ok (map (map (fun _ => PrimFloat.zero)) m)
|}.

(** An output that prints what it is given. *)
#[export] Instance report : StartupReport := {|
  announce := fun _ => Ok tt
|}.

Definition identity_scaler : Scaler float :=
  {| transform := fun X => Ok X |}.

Definition labels8 : LabelEncoder :=
  {| classes_ := ["angry"; "calm"; "disgust"; "fearful";
                  "happy"; "neutral"; "sad"; "surprised"] |}.

(** A classifier over eight classes. *)
Definition classifier8 : Classifier float :=
  {| n_classes := 8;
     predict := fun _ => Ok [4%Z];
     predict_proba := fun _ =>
       Ok [[0.0625; 0.0625; 0.0625; 0.0625;
            0.5; 0.0625; 0.125; 0.0625]%float] |}.

(** A classifier over six classes. *)
Definition classifier6 : Classifier float :=
  {| n_classes := 6;
     predict := fun _ => Ok [4%Z];
     predict_proba := fun _ =>
       Ok [[0.125; 0.125; 0.125; 0.0625; 0.5; 0.0625]%float] |}.

Definition at_boot (c : Classifier float) : World float :=
  {| model := None;
     label_encoder := None;
     scaler := None;
     models := {| emotion_classifier_joblib := Ok c;
                  label_encoder_joblib := Ok labels8;
                  scaler_joblib := Ok identity_scaler |};
     files := fun _ => None;
     tmp_name := "/tmp/tmpk3v9x2";
     calls := [] |}.

(** The state once [load_models] has run. *)
Definition serving (c : Classifier float) : World float :=
  snd (load_models (at_boot c)).

(** A clip with signal, a silent clip, and a clip of no samples. *)
Definition speech : UploadFile :=
  {| filename := "clip.wav";
     content := [Byte.xc0; Byte.x40; Byte.xff; Byte.x00; Byte.x80] |}.

Definition silence : UploadFile :=
  {| filename := "silence.wav";
     content := [Byte.x80; Byte.x80; Byte.x80] |}.

Definition garbage : UploadFile :=
  {| filename := "garbage.wav"; content := [] |}.

(** The same service later on: another temporary name, a file left
    on disk, calls already made. *)
Definition serving_later (c : Classifier float) : World float :=
  {| model := model (serving c);
     label_encoder := label_encoder (serving c);
     scaler := scaler (serving c);
     models := models (serving c);
     files := fun p => if String.eqb p "/tmp/clip.wav"
                       then Some (content speech) else None;
     tmp_name := "/tmp/tmpq81zzc";
     calls := [LibrosaLoad "/tmp/tmpk3v9x2.wav"] |}.

(** A [float32] waveform: 49, 7, -3. *)
Definition samples32 : list spec_float :=
  map float32_of_Z [49; 7; -3]%Z.

End Demo.

(* ================================================================= *)
(** ** The remaining endpoint of [backend/main.py] *)

(** The JSON object that [get_emotions] returns. *)
Record EmotionsResponse : Type := {
  emotions : list string;
  count : Z
}.

Section Emotions.
Context {F : Type}.

(** [get_emotions]: [classes_.tolist()] and [len(classes_)] of the
    loaded label encoder. *)
Definition get_emotions : M (F := F) EmotionsResponse :=
  w <- get (F := F) ;;
  match label_encoder w with
  | None => raise (HTTPException 500 "Model not loaded")
  | Some label_encoder =>
      ret {| emotions := classes_ label_encoder;
             count := Z.of_nat (length (classes_ label_encoder)) |}
  end.

(** What a request leaves behind in the world [w] it started from: the
    globals, the model directory and the temporary name as they were,
    and the files as they were but for the one at [tmp], which is
    gone. *)
Definition after_request (tmp : string) (w w' : World F) : Prop :=
  model w' = model w
  /\ label_encoder w' = label_encoder w
  /\ scaler w' = scaler w
  /\ models w' = models w
  /\ tmp_name w' = tmp_name w
  /\ forall p, files w' p = if String.eqb p tmp then None else files w p.
End Emotions.

(* ================================================================= *)
(** ** [frontend/app.py] *)

(** [d.get(k, default)] *)
Definition dict_get_default {V} (d : list (string * V)) (k : string)
    (default : V) : V :=
  match dict_get d k with
  | Some v => v
  | None => default
  end.

Section Frontend.
(** [str.lower], Python's lowering of a Unicode string, taken as a
    function on strings. *)
Variable lower : string -> string.

Definition emoji_map : list (string * string) :=
  [("happy", "😊"); ("sad", "😢"); ("angry", "😠"); ("fearful", "😨");
   ("disgust", "🤢"); ("surprised", "😲"); ("neutral", "😐");
   ("calm", "😌")].

Definition color_map : list (string * string) :=
  [("happy", "#FFD700"); ("sad", "#4682B4"); ("angry", "#DC143C");
   ("fearful", "#9370DB"); ("disgust", "#8B4513"); ("surprised", "#FF69B4");
   ("neutral", "#A9A9A9"); ("calm", "#87CEEB")].

(** [get_emotion_emoji] *)
Definition get_emotion_emoji (emotion : string) : string :=
  dict_get_default emoji_map (lower emotion) "🎭".

(** [get_emotion_color] *)
Definition get_emotion_color (emotion : string) : string :=
  dict_get_default color_map (lower emotion) "#808080".
End Frontend.

(** Further settings to run the code in: a librosa whose MFCC rejects
    its input, and a model directory whose scaler file does not load. *)
Module Cases.

Definition librosa_mfcc_raises : Librosa float := {|
  librosa_decode := Demo.decode_u8;
  librosa_mfcc := fun _ _ _ =>
    Raise (Exception "Audio buffer is not finite everywhere");
  librosa_delta := fun m _ => Ok m
|}.

Definition at_boot_without_scaler : World float :=
  {| model := None;
     label_encoder := None;
     scaler := None;
     models := {| emotion_classifier_joblib := Ok Demo.classifier8;
                  label_encoder_joblib := Ok Demo.labels8;
                  scaler_joblib :=
                    Raise (Exception "No such file or directory") |};
     files := fun _ => None;
     tmp_name := "/tmp/tmpk3v9x2";
     calls := [] |}.

(** A label encoder file that holds an object without [classes_]. *)
Definition report_without_classes : StartupReport := {|
  announce := fun _ =>
    Raise (Exception "'dict' object has no attribute 'classes_'")
|}.

(** A request whose file name is not a [.wav] name. *)
Definition mp3 : UploadFile :=
  {| filename := "clip.mp3";
     content := [Byte.xc0; Byte.x40; Byte.xff; Byte.x00; Byte.x80] |}.

(** ASCII lowering, a stand-in for [str.lower]. *)
Fixpoint ascii_lower (s : string) : string :=
  match s with
  | EmptyString => EmptyString
  | String c rest =>
      let n := Ascii.nat_of_ascii c in
      String (if ((65 <=? n) && (n <=? 90))%nat
              then Ascii.ascii_of_nat (n + 32) else c)
             (ascii_lower rest)
  end.

End Cases.

(* ================================================================= *)
(** * Properties *)

(** ** Length normalisation *)

Lemma target_length_value : Z.of_nat target_length = 56000%Z.
Proof. vm_compute. reflexivity. Qed.

Lemma target_length_round :
  py_round (inject_Z SAMPLE_RATE * DURATION) = Z.of_nat target_length.
Proof. vm_compute. reflexivity. Qed.

Section LengthNormalizer.
Context {F : Type} `{NumOps F} `{SqrtOp F} `{Librosa F}.

Lemma fix_length_short (audio : list F) :
  (length audio < target_length)%nat ->
  fix_length audio
  = audio ++ repeat fzero (target_length - length audio).
Proof.
  intros Hlt. unfold fix_length, np_pad_right.
  apply Nat.ltb_lt in Hlt. rewrite Hlt. reflexivity.
Qed.

Lemma fix_length_long (audio : list F) :
  (target_length <= length audio)%nat ->
  fix_length audio = firstn target_length audio.
Proof.
  intros Hle. unfold fix_length.
  apply Nat.ltb_ge in Hle. rewrite Hle. reflexivity.
Qed.

Lemma fix_length_length (audio : list F) :
  length (fix_length audio) = target_length.
Proof.
  destruct (Nat.lt_ge_cases (length audio) target_length) as [Hlt | Hge].
  - rewrite (fix_length_short _ Hlt), length_app, repeat_length. lia.
  - rewrite (fix_length_long _ Hge), length_firstn. lia.
Qed.

(** Peak normalisation maps over the samples, or leaves them alone. *)
Lemma normalize_amplitude_length (audio out : list F) :
  normalize_amplitude audio = Ok out -> length out = length audio.
Proof.
  unfold normalize_amplitude, rbind.
  destruct (np_max (np_abs audio)) as [peak | e]; [| discriminate].
  destruct (fltb fzero peak); intros Heq; inversion Heq; subst.
  - apply length_map.
  - reflexivity.
Qed.
End LengthNormalizer.

(** ** Running the monad *)

Section Runs.
Context {F : Type} `{NumOps F} `{SqrtOp F} `{Librosa F}.

Lemma bind_run {A B} (m : M A) (k : A -> M (F := F) B) w :
  bind m k w
  = match m w with
    | (Ok a, w') => k a w'
    | (Raise e, w') => (Raise e, w')
    end.
Proof. reflexivity. Qed.

(** [preprocess_audio] never raises, makes exactly one library call
    (the load) and yields samples only past the energy gate. *)
Lemma preprocess_audio_run (p : string) (w : World F) :
  preprocess_audio p w
  = (Ok match files w p with
        | None => None
        | Some bytes =>
            match librosa_decode bytes with
            | Raise _ => None
            | Ok audio =>
                if fltb (audio_energy audio) (of_Q MIN_AUDIO_ENERGY)
                then None
                else match normalize_amplitude (fix_length audio) with
                     | Ok out => Some out
                     | Raise _ => None
                     end
            end
        end,
     record_call (LibrosaLoad p) w).
Proof.
  unfold preprocess_audio, try_except, librosa_load, bind, get, call,
    lift, ret.
  destruct (files w p) as [bytes |]; [| reflexivity].
  destruct (librosa_decode bytes) as [audio | e]; [| reflexivity].
  destruct (fltb (audio_energy audio) (of_Q MIN_AUDIO_ENERGY));
    [reflexivity |].
  destruct (normalize_amplitude (fix_length audio)); reflexivity.
Qed.

(** What [extract_features] leaves of the world: the globals and the
    files as they were, the calls extended. *)
Lemma extract_features_world (p : string) (w : World F) :
  let w' := snd (extract_features p w) in
  model w' = model w /\ label_encoder w' = label_encoder w
  /\ scaler w' = scaler w /\ files w' = files w
  /\ tmp_name w' = tmp_name w.
Proof.
  unfold extract_features. rewrite bind_run, preprocess_audio_run.
  destruct (files w p) as [bytes |]; [| cbn; tauto].
  destruct (librosa_decode bytes) as [audio | e]; [| cbn; tauto].
  destruct (fltb (audio_energy audio) (of_Q MIN_AUDIO_ENERGY));
    [cbn; tauto |].
  destruct (normalize_amplitude (fix_length audio)) as [out | e];
    [| cbn; tauto].
  unfold bind, call, ret.
  destruct (librosa_mfcc out SAMPLE_RATE N_MFCC) as [m | e]; [| cbn; tauto].
  destruct (librosa_delta m 1) as [d | e]; [| cbn; tauto].
  destruct (librosa_delta m 2) as [d2 | e]; cbn; tauto.
Qed.

(** The outcome of [extract_features] is a function of the bytes
    found at the path. *)
Lemma extract_features_result (p1 p2 : string) (w1 w2 : World F) :
  files w1 p1 = files w2 p2 ->
  fst (extract_features p1 w1) = fst (extract_features p2 w2).
Proof.
  intros Hfiles. unfold extract_features.
  rewrite !bind_run, !preprocess_audio_run, Hfiles.
  destruct (files w2 p2) as [bytes |]; [| reflexivity].
  destruct (librosa_decode bytes) as [audio | e]; [| reflexivity].
  destruct (fltb (audio_energy audio) (of_Q MIN_AUDIO_ENERGY));
    [reflexivity |].
  destruct (normalize_amplitude (fix_length audio)) as [out | e];
    [| reflexivity].
  unfold bind, call, ret.
  destruct (librosa_mfcc out SAMPLE_RATE N_MFCC) as [m | e];
    [| reflexivity].
  destruct (librosa_delta m 1) as [d | e]; [| reflexivity].
  destruct (librosa_delta m 2) as [d2 | e]; reflexivity.
Qed.
End Runs.

(** ** The shape of a response *)

Section Responses.
Context {F : Type} `{NumOps F} `{SqrtOp F} `{Librosa F}.

(** The handler of [predict_emotion]: it removes the temporary file
    when it is still there and answers with a failure; it does not
    raise. *)
Lemma cleanup_run (tmp msg : string) (w : World F) :
  exists w',
    (tmp_exists <- os_path_exists tmp ;;
     (if tmp_exists then os_unlink tmp else ret tt) ;;;
     ret (failure msg)) w
    = (Ok (failure msg), w').
Proof.
  unfold bind, os_path_exists, os_unlink, get, ret, raise, set_files, bind.
  destruct (files w tmp) eqn:Hf; cbn; rewrite ?Hf; eauto.
Qed.

(** With the models loaded, [predict_emotion] returns a response: a
    failure with a message, or a success built from the artifacts'
    answers. *)
Lemma predict_emotion_cases (file : UploadFile) (w : World F)
    (m : Classifier F) (le : LabelEncoder) (s : Scaler F) :
  model w = Some m -> label_encoder w = Some le -> scaler w = Some s ->
  exists resp w',
    predict_emotion file w = (Ok resp, w')
    /\ ((exists msg, resp = failure msg /\ msg <> "")
        \/ success_of m le resp).
Proof.
  intros Hm Hle Hs. unfold predict_emotion.
  rewrite bind_run. unfold get at 1. rewrite Hm, Hle, Hs.
  destruct (endswith (filename file) ".wav"); cbn [negb].
  2:{ eexists _, _. split; [reflexivity |]. left.
      eexists. split; [reflexivity | discriminate]. }
  set (tmp := (tmp_name w ++ ".wav")%string).
  unfold try_except.
  rewrite bind_run. unfold write_file at 1, get at 1.
  rewrite bind_run. unfold set_files at 1. cbn beta iota.
  match goal with
  | |- context [bind (extract_features tmp) _ ?w0] => set (w1 := w0)
  end.
  rewrite bind_run.
  pose proof (extract_features_world tmp w1) as Hw. cbn zeta in Hw.
  destruct (extract_features tmp w1) as [[features | e] w2].
  2:{ destruct (cleanup_run tmp ("Processing error: " ++ str e) w2)
        as [w' Hc].
      eexists _, w'. split; [exact Hc |]. left.
      eexists. split; [reflexivity | discriminate]. }
  cbn [snd] in Hw. destruct Hw as (_ & _ & _ & Hfiles & _).
  rewrite bind_run. unfold os_unlink at 1, get at 1.
  rewrite bind_run. rewrite Hfiles. unfold w1 at 1. cbn [files].
  rewrite String.eqb_refl. unfold set_files at 1.
  destruct features as [features |].
  2:{ eexists _, _. split; [reflexivity |]. left.
      eexists. split; [reflexivity | discriminate]. }
  match goal with
  | |- context [bind _ _ ?w0] => set (w3 := w0)
  end.
  assert (Hfail : forall e (w4 : World F), exists resp w',
    (let (r, w'0) := (Raise e : result (PredictionResponse F), w4) in
     match r with
     | Ok a => (Ok a, w'0)
     | Raise e0 =>
         (tmp_exists <- os_path_exists tmp ;;
          (if tmp_exists then os_unlink tmp else ret tt) ;;;
          ret (failure ("Processing error: " ++ str e0)%string)) w'0
     end) = (Ok resp, w')
    /\ ((exists msg, resp = failure msg /\ msg <> "")
        \/ success_of m le resp)).
  { intros e w4.
    destruct (cleanup_run tmp ("Processing error: " ++ str e) w4)
      as [w' Hc].
    eexists _, w'. split; [exact Hc |]. left.
    eexists. split; [reflexivity | discriminate]. }
  unfold bind, call, lift, ret.
  destruct (transform s [features]) as [X | e]; [| apply Hfail].
  destruct (predict m X) as [predictions | e] eqn:Hp; [| apply Hfail].
  destruct (index0 predictions) as [prediction | e] eqn:Hp0;
    [| apply Hfail].
  destruct (predict_proba m X) as [probas | e] eqn:Hpp; [| apply Hfail].
  destruct (index0 probas) as [probabilities | e] eqn:Hpp0;
    [| apply Hfail].
  destruct (inverse_transform le [prediction]) as [emotions | e] eqn:Hinv;
    [| apply Hfail].
  destruct (index0 emotions) as [emo | e] eqn:Hemo; [| apply Hfail].
  destruct (getitem probabilities prediction) as [conf | e] eqn:Hconf;
    [| apply Hfail].
  destruct (all_probs_of le (enumerate 0 probabilities) [])
    as [all_probs | e] eqn:Hall; [| apply Hfail].
  eexists _, _. split; [reflexivity |]. right.
  exists X, predictions, prediction, probas, probabilities, emotions.
  cbn. repeat split; assumption.
Qed.
End Responses.

(** ** Decoding labels and building the probability mapping *)

Lemma firstn_succ_nth_error {A} (l : list A) (k : nat) (x : A) :
  nth_error l k = Some x -> firstn (S k) l = firstn k l ++ [x].
Proof.
  revert l. induction k as [| k IH]; intros [| y l] Hnth;
    try discriminate.
  - cbn in Hnth. inversion Hnth. reflexivity.
  - cbn in Hnth. change (firstn (S (S k)) (y :: l)) with (y :: firstn (S k) l).
    rewrite (IH l Hnth). reflexivity.
Qed.

Lemma NoDup_firstn_prefix {A} (l : list A) (k : nat) :
  NoDup l -> NoDup (firstn k l).
Proof.
  intros Hnd. rewrite <- (firstn_skipn k l) in Hnd.
  apply NoDup_app_remove_r in Hnd. exact Hnd.
Qed.

Lemma nth_error_not_in_firstn {A} (l : list A) (k : nat) (x : A) :
  NoDup l -> nth_error l k = Some x -> ~ In x (firstn k l).
Proof.
  intros Hnd Hk Hin.
  apply In_nth_error in Hin. destruct Hin as [j Hj].
  rewrite nth_error_firstn in Hj.
  destruct (Nat.ltb_spec j k) as [Hlt |]; [| discriminate].
  assert (j = k); [| lia].
  apply (proj1 (NoDup_nth_error l) Hnd).
  - apply nth_error_Some. congruence.
  - congruence.
Qed.

Lemma dict_set_fresh {V} (d : list (string * V)) (k : string) (v : V) :
  ~ In k (dict_keys d) -> dict_set d k v = d ++ [(k, v)].
Proof.
  induction d as [| [k' v'] d IH]; intros Hfresh; [reflexivity |].
  cbn in *. destruct (String.eqb_spec k' k) as [-> | _].
  - exfalso. apply Hfresh. now left.
  - rewrite IH; [reflexivity |]. intros Hin. apply Hfresh. now right.
Qed.

Lemma dict_get_nth {V} (d : list (string * V)) (j : nat) (k : string) (v : V) :
  NoDup (dict_keys d) ->
  nth_error (dict_keys d) j = Some k ->
  nth_error (dict_values d) j = Some v ->
  dict_get d k = Some v.
Proof.
  revert j. induction d as [| [k' v'] d IH]; intros [| j] Hnd Hk Hv;
    try discriminate; cbn in *.
  - inversion Hk. inversion Hv. subst. now rewrite String.eqb_refl.
  - inversion Hnd as [| ? ? Hnotin Hnd']. subst.
    destruct (String.eqb_spec k' k) as [-> | _].
    + exfalso. apply Hnotin. eapply nth_error_In. exact Hk.
    + eapply IH; eassumption.
Qed.

Lemma getitem_nonneg {A} (l : list A) (i : Z) (x : A) :
  getitem l i = Ok x -> (0 <= i)%Z -> nth_error l (Z.to_nat i) = Some x.
Proof.
  unfold getitem. intros Hget Hpos.
  destruct (Z.ltb_spec i 0) as [| _]; [lia |].
  destruct ((0 <=? i) && (i <? Z.of_nat (length l)))%Z; [| discriminate].
  destruct (nth_error l (Z.to_nat i)); inversion Hget. reflexivity.
Qed.

(** Decoding one index: it lies within the label list, and the label
    is the one at that position. *)
Lemma inverse_transform_one (le : LabelEncoder) (i : Z)
    (labels : list string) (label : string) :
  inverse_transform le [i] = Ok labels ->
  index0 labels = Ok label ->
  (0 <= i)%Z /\ nth_error (classes_ le) (Z.to_nat i) = Some label.
Proof.
  unfold inverse_transform. cbn [forallb map].
  rewrite andb_true_r.
  destruct (Z.leb_spec 0 i) as [Hlo |]; [| discriminate].
  destruct (Z.ltb_spec i (Z.of_nat (length (classes_ le)))) as [Hhi |];
    [| discriminate].
  cbn [andb]. intros Hlab Hidx. inversion Hlab. subst labels.
  cbn in Hidx. inversion Hidx. split; [assumption |].
  apply nth_error_nth'. lia.
Qed.

Section Mapping.
Context {F : Type}.

(** The comprehension, started at index [k] on a mapping that holds
    the first [k] labels: each further probability is filed under the
    next label, and there are labels enough for all of them. *)
Lemma all_probs_of_from (le : LabelEncoder) :
  NoDup (classes_ le) ->
  forall (ps : list F) (k : nat) (acc d : list (string * F)),
    dict_keys acc = firstn k (classes_ le) ->
    (k <= length (classes_ le))%nat ->
    all_probs_of le (enumerate (Z.of_nat k) ps) acc = Ok d ->
    (k + length ps <= length (classes_ le))%nat
    /\ dict_keys d = firstn (k + length ps) (classes_ le)
    /\ dict_values d = dict_values acc ++ ps.
Proof.
  intros Hnd. induction ps as [| p ps IH]; intros k acc d Hkeys Hk Hall.
  - cbn in Hall. inversion Hall. subst d.
    rewrite Nat.add_0_r, app_nil_r. auto.
  - cbn [enumerate all_probs_of] in Hall. unfold rbind in Hall.
    destruct (inverse_transform le [Z.of_nat k]) as [labels | e] eqn:Hinv;
      [| discriminate].
    destruct (index0 labels) as [label | e] eqn:Hidx; [| discriminate].
    destruct (inverse_transform_one _ _ Hinv Hidx) as [_ Hnth].
    rewrite Nat2Z.id in Hnth.
    assert (Hlt : (k < length (classes_ le))%nat).
    { apply nth_error_Some. congruence. }
    rewrite dict_set_fresh in Hall.
    2:{ rewrite Hkeys. now apply nth_error_not_in_firstn. }
    replace (Z.of_nat k + 1)%Z with (Z.of_nat (S k)) in Hall by lia.
    apply IH in Hall.
    + destruct Hall as (Hlen & Hk' & Hv'). cbn [length].
      replace (k + S (length ps))%nat with (S k + length ps)%nat by lia.
      repeat split; [assumption | assumption |].
      rewrite Hv'. unfold dict_values. rewrite map_app, <- app_assoc.
      reflexivity.
    + unfold dict_keys in *. rewrite map_app, Hkeys. cbn [map fst].
      symmetry. now apply firstn_succ_nth_error.
    + lia.
Qed.

Lemma all_probs_of_spec (le : LabelEncoder) (ps : list F)
    (d : list (string * F)) :
  NoDup (classes_ le) ->
  all_probs_of le (enumerate 0 ps) [] = Ok d ->
  (length ps <= length (classes_ le))%nat
  /\ dict_keys d = firstn (length ps) (classes_ le)
  /\ dict_values d = ps.
Proof.
  intros Hnd Hall.
  apply all_probs_of_from with (k := 0%nat) in Hall;
    [exact Hall | exact Hnd | reflexivity | lia].
Qed.
End Mapping.

(** ** Independence of the environment *)

Section Determinism.
Context {F : Type} `{NumOps F} `{SqrtOp F} `{Librosa F}.

Ltac handler_raises Hh1 Hh2 :=
  cbn beta iota;
  match goal with
  | |- fst (?h1 ?e ?wa) = fst (?h2 ?e ?wb) =>
      destruct (Hh1 e wa) as [? ->]; destruct (Hh2 e wb) as [? ->];
      reflexivity
  end.

(** C9.  [predict_emotion] is deterministic: two runs on the same
    request with the same loaded artifacts give the same outcome
    (label, confidence, probability mapping, validity and message),
    whatever name the temporary file is given, whatever files exist
    and whatever was called before.  The libraries and the artifacts
    are functions of their arguments. *)
Theorem predict_is_deterministic (file : UploadFile) (w1 w2 : World F) :
  model w1 = model w2 ->
  label_encoder w1 = label_encoder w2 ->
  scaler w1 = scaler w2 ->
  fst (predict_emotion file w1) = fst (predict_emotion file w2).
Proof.
  intros Hm Hle Hs. unfold predict_emotion.
  rewrite !bind_run. unfold get. rewrite Hm, Hle, Hs.
  destruct (model w2) as [m |]; [| reflexivity].
  destruct (label_encoder w2) as [le |]; [| reflexivity].
  destruct (scaler w2) as [s |]; [| reflexivity].
  destruct (endswith (filename file) ".wav"); cbn [negb]; [| reflexivity].
  set (tmp1 := (tmp_name w1 ++ ".wav")%string).
  set (tmp2 := (tmp_name w2 ++ ".wav")%string).
  match goal with
  | |- fst (try_except _ ?h1 _) = fst (try_except _ ?h2 _) =>
      set (handler1 := h1); set (handler2 := h2)
  end.
  assert (Hh1 : forall e w0, exists w',
    handler1 e w0 = (Ok (failure ("Processing error: " ++ str e)%string), w'))
    by (intros; apply cleanup_run).
  assert (Hh2 : forall e w0, exists w',
    handler2 e w0 = (Ok (failure ("Processing error: " ++ str e)%string), w'))
    by (intros; apply cleanup_run).
  clearbody handler1 handler2.
  unfold try_except.
  rewrite !bind_run. unfold write_file, get.
  rewrite !bind_run. unfold set_files at 1 2. cbn beta iota.
  match goal with
  | |- context [bind (extract_features tmp1) _ ?wa] => set (wa1 := wa)
  end.
  match goal with
  | |- context [bind (extract_features tmp2) _ ?wb] => set (wb1 := wb)
  end.
  rewrite !bind_run.
  assert (Hres : fst (extract_features tmp1 wa1)
                 = fst (extract_features tmp2 wb1)).
  { apply extract_features_result. unfold wa1, wb1. cbn [files].
    now rewrite !String.eqb_refl. }
  pose proof (extract_features_world tmp1 wa1) as Hwa.
  pose proof (extract_features_world tmp2 wb1) as Hwb.
  cbn zeta in Hwa, Hwb.
  destruct (extract_features tmp1 wa1) as [r1 wa2].
  destruct (extract_features tmp2 wb1) as [r2 wb2].
  cbn [fst snd] in Hres, Hwa, Hwb. subst r2.
  destruct Hwa as (_ & _ & _ & Hfa & _).
  destruct Hwb as (_ & _ & _ & Hfb & _).
  destruct r1 as [features | e]; [| handler_raises Hh1 Hh2].
  rewrite !bind_run. unfold os_unlink, get. rewrite !bind_run.
  rewrite Hfa, Hfb. unfold wa1 at 1, wb1 at 1. cbn [files].
  rewrite !String.eqb_refl. unfold set_files.
  destruct features as [features |]; [| reflexivity].
  unfold bind, call, lift, ret.
  destruct (transform s [features]) as [X | e];
    [| handler_raises Hh1 Hh2].
  destruct (predict m X) as [predictions | e];
    [| handler_raises Hh1 Hh2].
  destruct (index0 predictions) as [prediction | e];
    [| handler_raises Hh1 Hh2].
  destruct (predict_proba m X) as [probas | e];
    [| handler_raises Hh1 Hh2].
  destruct (index0 probas) as [probabilities | e];
    [| handler_raises Hh1 Hh2].
  destruct (inverse_transform le [prediction]) as [emotions | e];
    [| handler_raises Hh1 Hh2].
  destruct (index0 emotions) as [emo | e]; [| handler_raises Hh1 Hh2].
  destruct (getitem probabilities prediction) as [conf | e];
    [| handler_raises Hh1 Hh2].
  destruct (all_probs_of le (enumerate 0 probabilities) [])
    as [all_probs | e]; [| handler_raises Hh1 Hh2].
  reflexivity.
Qed.
End Determinism.

(** ** Peak normalisation *)

(** Dividing by the peak twice is dividing by it once, in any
    arithmetic where division by a positive number commutes with the
    absolute value and with the maximum, [m / m = 1] and [x / 1 = x]. *)
Section AmplitudeLaws.
Context {F : Type} `{NumOps F}.

Hypothesis one_positive : fltb fzero fone = true.
Hypothesis div_one : forall x, fdiv x fone = x.
Hypothesis div_self : forall m, fltb fzero m = true -> fdiv m m = fone.
Hypothesis abs_div : forall x m,
  fltb fzero m = true -> fabs (fdiv x m) = fdiv (fabs x) m.
Hypothesis maximum_div : forall a b m,
  fltb fzero m = true ->
  fmaximum (fdiv a m) (fdiv b m) = fdiv (fmaximum a b) m.

Lemma fold_maximum_div (m : F) (rest : list F) (x : F) :
  fltb fzero m = true ->
  fold_left fmaximum (map (fun y => fdiv y m) rest) (fdiv x m)
  = fdiv (fold_left fmaximum rest x) m.
Proof.
  intros Hm. revert x. induction rest as [| y rest IH]; intros x.
  - reflexivity.
  - cbn [map fold_left]. rewrite maximum_div by exact Hm. apply IH.
Qed.

Lemma np_max_abs_div (audio : list F) (peak m : F) :
  fltb fzero m = true ->
  np_max (np_abs audio) = Ok peak ->
  np_max (np_abs (map (fun x => fdiv x m) audio)) = Ok (fdiv peak m).
Proof.
  intros Hm. unfold np_max, np_abs.
  destruct audio as [| x audio]; [discriminate |].
  cbn [map]. intros Hpeak. inversion Hpeak as [Hfold].
  rewrite abs_div by exact Hm. f_equal.
  rewrite map_map.
  rewrite (map_ext (fun y => fabs (fdiv y m))
                   (fun y => fdiv (fabs y) m))
    by (intros; now apply abs_div).
  rewrite <- (map_map fabs (fun y => fdiv y m)).
  now apply fold_maximum_div.
Qed.

Lemma normalize_amplitude_twice (audio : list F) (peak : F) :
  np_max (np_abs audio) = Ok peak ->
  fltb fzero peak = true ->
  exists once,
    normalize_amplitude audio = Ok once
    /\ normalize_amplitude once = Ok once.
Proof.
  intros Hpeak Hpos.
  exists (map (fun x => fdiv x peak) audio). split.
  - unfold normalize_amplitude, rbind. now rewrite Hpeak, Hpos.
  - unfold normalize_amplitude, rbind.
    rewrite np_max_abs_div with (peak := peak) by assumption.
    rewrite div_self by exact Hpos. rewrite one_positive. f_equal.
    rewrite <- (map_id (map (fun x => fdiv x peak) audio)) at 2.
    apply map_ext. intros; apply div_one.
Qed.
End AmplitudeLaws.

(** The laws hold on exact rationals. *)
Section AmplitudeOnRationals.
Local Open Scope Qc_scope.

Lemma Qc_ltb_lt (a b : Qc) : Qc_ltb a b = true <-> a < b.
Proof.
  unfold Qc_ltb. rewrite Qclt_alt.
  destruct (a ?= b); split; intros; try reflexivity; discriminate.
Qed.

Lemma Qc_ltb_ge (a b : Qc) : Qc_ltb a b = false <-> b <= a.
Proof.
  split.
  - intros Hf. apply Qcnot_lt_le. intros Hlt.
    apply Qc_ltb_lt in Hlt. congruence.
  - intros Hle. destruct (Qc_ltb a b) eqn:Hlt; [| reflexivity].
    apply Qc_ltb_lt in Hlt. exfalso. now apply (Qcle_not_lt _ _ Hle).
Qed.

Lemma Qc_inv_positive (m : Qc) : 0 < m -> 0 < / m.
Proof.
  intros Hm. apply Qcnot_le_lt. intros Hle.
  assert (Hne : m <> 0) by (apply not_eq_sym, Qclt_not_eq, Hm).
  assert (H1 : / m * m <= 0 * m).
  { apply Qcmult_le_compat_r; [exact Hle | now apply Qclt_le_weak]. }
  rewrite Qcmult_inv_l, Qcmult_0_l in H1 by exact Hne.
  now apply (Qcle_not_lt _ _ H1).
Qed.

Lemma Qc_one_positive : fltb fzero (fone (F := Qc)) = true.
Proof. reflexivity. Qed.

Lemma Qc_div_one (x : Qc) : fdiv x fone = x.
Proof.
  change (x / 1 = x). unfold Qcdiv.
  replace (/ 1) with 1 by (apply Qc_is_canon; reflexivity).
  apply Qcmult_1_r.
Qed.

Lemma Qc_div_self (m : Qc) : fltb fzero m = true -> fdiv m m = fone.
Proof.
  intros Hm. apply Qc_ltb_lt in Hm. change (m / m = 1).
  apply Qcmult_inv_r, not_eq_sym, Qclt_not_eq, Hm.
Qed.

Lemma Qc_abs_div (x m : Qc) :
  fltb fzero m = true -> fabs (fdiv x m) = fdiv (fabs x) m.
Proof.
  intros Hm. apply Qc_ltb_lt in Hm.
  change (Qcabs (x * / m) = Qcabs x * / m).
  rewrite Qcabs_Qcmult. f_equal.
  apply Qcabs_pos, Qclt_le_weak, Qc_inv_positive, Hm.
Qed.

Lemma Qc_maximum_div (a b m : Qc) :
  fltb fzero m = true ->
  fmaximum (fdiv a m) (fdiv b m) = fdiv (fmaximum a b) m.
Proof.
  intros Hm. apply Qc_ltb_lt in Hm.
  pose proof (Qc_inv_positive Hm) as Hinv.
  change (Qc_maximum (a * / m) (b * / m) = Qc_maximum a b * / m).
  unfold Qc_maximum.
  destruct (Qc_ltb a b) eqn:Hab.
  - apply Qc_ltb_lt in Hab.
    assert (Hlt : a * / m < b * / m) by now apply Qcmult_lt_compat_r.
    apply Qc_ltb_lt in Hlt. now rewrite Hlt.
  - apply Qc_ltb_ge in Hab.
    assert (Hle : b * / m <= a * / m).
    { apply Qcmult_le_compat_r; [exact Hab | now apply Qclt_le_weak]. }
    apply Qc_ltb_ge in Hle. now rewrite Hle.
Qed.

(** The peak of a waveform is the absolute value of a sample. *)
Lemma fold_maximum_in (rest : list Qc) (x : Qc) :
  In (fold_left Qc_maximum rest x) (x :: rest).
Proof.
  revert x. induction rest as [| y rest IH]; intros x; [now left |].
  cbn [fold_left]. specialize (IH (Qc_maximum x y)).
  destruct IH as [Heq | Hin].
  - rewrite <- Heq. unfold Qc_maximum.
    destruct (Qc_ltb x y); [right; now left | now left].
  - right. now right.
Qed.

Lemma peak_nonnegative (audio : list Qc) (peak : Qc) :
  np_max (np_abs audio) = Ok peak -> 0 <= peak.
Proof.
  unfold np_max, np_abs. destruct audio as [| x audio]; [discriminate |].
  cbn [map]. intros Hpeak. inversion Hpeak as [Hfold].
  pose proof (fold_maximum_in (map Qcabs audio) (Qcabs x)) as Hin.
  change (In (fold_left Qc_maximum (map Qcabs audio) (Qcabs x))
             (map Qcabs (x :: audio))) in Hin.
  apply in_map_iff in Hin. destruct Hin as (y & Hy & _).
  change (@fmaximum Qc Qc_ops) with Qc_maximum.
  change (@fabs Qc Qc_ops) with Qcabs.
  rewrite <- Hy. apply Qcabs_nonneg.
Qed.
End AmplitudeOnRationals.

(* ================================================================= *)
(** ** Peak normalisation on [float32]

    The arrays of the source are [float32].  Division there rounds
    and has infinities and NaN, so the laws above cannot be taken for
    granted: [m / m = 1] fails at infinity.  What follows works on the
    IEEE specification of the format itself. *)

Section Binary32.
Local Open Scope Z_scope.

Lemma pow2_pos (k : Z) : 0 <= k -> 0 < 2 ^ k.
Proof. intros. apply Z.pow_pos_nonneg; lia. Qed.

Lemma pow2_le (a b : Z) : a <= b -> 2 ^ a <= 2 ^ b.
Proof. intros. apply Z.pow_le_mono_r; lia. Qed.

Lemma pow2_split (a b : Z) : 0 <= a -> 0 <= b -> 2 ^ (a + b) = 2 ^ a * 2 ^ b.
Proof. intros. apply Z.pow_add_r; assumption. Qed.

Lemma digits2_pos_bounds (m : positive) :
  2 ^ (Zpos (digits2_pos m) - 1) <= Zpos m < 2 ^ Zpos (digits2_pos m).
Proof.
  induction m as [m IH | m IH |]; cbn [digits2_pos].
  - rewrite Pos2Z.inj_succ.
    replace (Z.succ (Zpos (digits2_pos m)) - 1)
      with (Z.succ (Zpos (digits2_pos m) - 1)) by lia.
    rewrite !Z.pow_succ_r by lia. lia.
  - rewrite Pos2Z.inj_succ.
    replace (Z.succ (Zpos (digits2_pos m)) - 1)
      with (Z.succ (Zpos (digits2_pos m) - 1)) by lia.
    rewrite !Z.pow_succ_r by lia. lia.
  - cbn. lia.
Qed.

Lemma Zdigits2_bounds (m : Z) :
  0 < m -> 0 < Zdigits2 m /\ 2 ^ (Zdigits2 m - 1) <= m < 2 ^ Zdigits2 m.
Proof.
  destruct m as [| p | p]; try lia. intros _. split; [cbn; lia |].
  apply digits2_pos_bounds.
Qed.

Lemma Zdigits2_nonneg (m : Z) : 0 <= Zdigits2 m.
Proof. destruct m; cbn; lia. Qed.

Lemma Zdigits2_le_of_lt_pow (m k : Z) :
  0 <= m -> 0 <= k -> m < 2 ^ k -> Zdigits2 m <= k.
Proof.
  intros Hm Hk Hlt. destruct (Z.eq_dec m 0) as [-> | Hne]; [cbn; lia |].
  destruct (@Zdigits2_bounds m ltac:(lia)) as [Hp Hd].
  destruct (Z.le_gt_cases (Zdigits2 m) k) as [| Hgt]; [assumption | exfalso].
  pose proof (@pow2_le k (Zdigits2 m - 1) ltac:(lia)). lia.
Qed.

Lemma Zdigits2_ge_of_pow_le (m k : Z) :
  0 <= k -> 2 ^ k <= m -> k + 1 <= Zdigits2 m.
Proof.
  intros Hk Hle. pose proof (pow2_pos Hk).
  destruct (@Zdigits2_bounds m ltac:(lia)) as [Hp Hd].
  destruct (Z.le_gt_cases (k + 1) (Zdigits2 m)) as [| Hgt]; [assumption | exfalso].
  pose proof (@pow2_le (Zdigits2 m) k ltac:(lia)). lia.
Qed.

Lemma Zdigits2_mono (a b : Z) : 0 <= a -> a <= b -> Zdigits2 a <= Zdigits2 b.
Proof.
  intros Ha Hab. destruct (Z.eq_dec b 0) as [-> | Hne].
  - replace a with 0 by lia. lia.
  - destruct (@Zdigits2_bounds b ltac:(lia)) as [Hp Hb].
    apply Zdigits2_le_of_lt_pow; lia.
Qed.

(** ** Shifting right *)

Lemma iter_pos_invariant (A : Type) (f : A -> A) (P : Z -> A -> Prop) :
  (forall k x, 0 <= k -> P k x -> P (k + 1) (f x)) ->
  forall p k x, 0 <= k -> P k x -> P (k + Zpos p) (iter_pos f p x).
Proof.
  intros Hstep. induction p as [p IH | p IH |]; intros k x Hk HP;
    cbn [iter_pos].
  - replace (k + Zpos p~1) with ((k + 1 + Zpos p) + Zpos p) by lia.
    apply IH; [lia |]. apply IH; [lia |]. now apply Hstep.
  - replace (k + Zpos p~0) with ((k + Zpos p) + Zpos p) by lia.
    apply IH; [lia |]. now apply IH.
  - now apply Hstep.
Qed.

Lemma shr_1_m (mrs : shr_record) :
  0 <= shr_m mrs -> shr_m (shr_1 mrs) = shr_m mrs / 2.
Proof.
  destruct mrs as [m r s]. cbn [shr_m]. intros Hm.
  destruct m as [| [p | p |] | p]; cbn [shr_1 shr_m];
    first [ reflexivity | lia
          | apply Z.div_unique with (r := 1); lia
          | apply Z.div_unique with (r := 0); lia ].
Qed.

Lemma iter_shr_1_m (p : positive) (mrs : shr_record) :
  0 <= shr_m mrs ->
  shr_m (iter_pos shr_1 p mrs) = shr_m mrs / 2 ^ Zpos p.
Proof.
  intros Hm.
  assert (Hstep : forall k x, 0 <= k -> shr_m x = shr_m mrs / 2 ^ k ->
                              shr_m (shr_1 x) = shr_m mrs / 2 ^ (k + 1)).
  { intros k x Hk Hx. pose proof (pow2_pos Hk) as Hpk. rewrite shr_1_m.
    - rewrite Hx, pow2_split, Z.pow_1_r by lia.
      apply Z.div_div; lia.
    - rewrite Hx. apply Z.div_pos; lia. }
  pose proof (@iter_pos_invariant _ shr_1
    (fun k x => shr_m x = shr_m mrs / 2 ^ k) Hstep p 0 mrs) as Hinv.
  rewrite Z.add_0_l in Hinv. apply Hinv; [lia |].
  cbn. now rewrite Z.div_1_r.
Qed.

Lemma shr_record_of_loc_m (m : Z) (l : location) :
  shr_m (shr_record_of_loc m l) = m.
Proof. destruct l as [| []]; reflexivity. Qed.

Lemma fexp32 (x : Z) : fexp 24 128 x = Z.max (x - 24) (-149).
Proof. reflexivity. Qed.

(** The first shift of [binary_round_aux] brings mantissa and exponent
    into canonical position. *)
Lemma shr_fexp_canonical (m e : Z) (l : location) :
  0 <= m -> e <= -149 \/ 2 ^ 23 <= m ->
  exists mrs n,
    shr_fexp 24 128 m e l = (mrs, e + n)
    /\ 0 <= n
    /\ e + n = fexp 24 128 (Zdigits2 m + e)
    /\ shr_m mrs = m / 2 ^ n
    /\ canonical32 (m / 2 ^ n) (e + n).
Proof.
  intros Hm Hpre.
  pose proof (Zdigits2_nonneg m) as Hd0.
  assert (Hn : 0 <= fexp 24 128 (Zdigits2 m + e) - e).
  { rewrite fexp32. destruct Hpre as [He | Hbig]; [lia |].
    pose proof (@Zdigits2_ge_of_pow_le m 23 ltac:(lia) Hbig). lia. }
  remember (fexp 24 128 (Zdigits2 m + e) - e) as n eqn:En.
  assert (Hcanon : canonical32 (m / 2 ^ n) (e + n)).
  { pose proof (pow2_pos Hn) as Hpn.
    assert (Hq0 : 0 <= m / 2 ^ n) by (apply Z.div_pos; lia).
    rewrite fexp32 in En.
    unfold canonical32. split; [split; [exact Hq0 |] | split; [lia |]].
    - destruct (Z.eq_dec m 0) as [-> | Hne].
      + rewrite Z.div_0_l by lia. lia.
      + destruct (@Zdigits2_bounds m ltac:(lia)) as [Hp Hb].
        apply Z.div_lt_upper_bound; [lia |].
        rewrite <- pow2_split by lia.
        pose proof (@pow2_le (Zdigits2 m) (n + 24) ltac:(lia)). lia.
    - destruct (Z.eq_dec (e + n) (-149)) as [| Hne]; [now left | right].
      assert (Hnd : n = Zdigits2 m - 24) by lia.
      destruct (Z.eq_dec m 0) as [-> | Hm0]; [cbn in Hnd; lia |].
      destruct (@Zdigits2_bounds m ltac:(lia)) as [Hp Hb].
      apply Z.div_le_lower_bound; [lia |].
      rewrite <- pow2_split by lia.
      replace (n + 23) with (Zdigits2 m - 1) by lia. lia. }
  unfold shr_fexp. rewrite <- En.
  destruct n as [| p | p]; [| | lia].
  - exists (shr_record_of_loc m l), 0. cbn [shr].
    split; [now rewrite Z.add_0_r |]. split; [lia |].
    split; [lia |]. split; [| exact Hcanon].
    rewrite shr_record_of_loc_m. cbn. now rewrite Z.div_1_r.
  - exists (iter_pos shr_1 p (shr_record_of_loc m l)), (Zpos p). cbn [shr].
    split; [reflexivity |]. split; [lia |].
    split; [lia |]. split; [| exact Hcanon].
    rewrite iter_shr_1_m; rewrite shr_record_of_loc_m; [reflexivity | lia].
Qed.

Lemma round_nearest_even_step (m : Z) (l : location) :
  round_nearest_even m l = m \/ round_nearest_even m l = m + 1.
Proof.
  destruct l as [| []]; cbn; auto. destruct (Z.even m); auto.
Qed.

(** The second shift absorbs a carry out of the top bit. *)
Lemma shr_fexp_after_rounding (m1 m2 e1 : Z) :
  canonical32 m1 e1 -> m2 = m1 \/ m2 = m1 + 1 ->
  exists mrs m3 e3,
    shr_fexp 24 128 m2 e1 loc_Exact = (mrs, e3)
    /\ shr_m mrs = m3
    /\ canonical32 m3 e3
    /\ ((m3 = m2 /\ e3 = e1) \/ (m3 = 2 ^ 23 /\ e3 = e1 + 1)).
Proof.
  intros (Hm1 & He1 & Hn1) Hm2.
  destruct (Z.eq_dec m2 (2 ^ 24)) as [Htop | Hlow].
  - exists {| shr_m := 2 ^ 23; shr_r := false; shr_s := false |},
           (2 ^ 23), (e1 + 1).
    rewrite Htop. unfold shr_fexp. change (Zdigits2 (2 ^ 24)) with 25.
    rewrite fexp32. replace (Z.max (25 + e1 - 24) (-149) - e1) with 1 by lia.
    repeat split; try (cbn; lia).
  - assert (Hlt : 0 <= m2 < 2 ^ 24) by lia.
    exists (shr_record_of_loc m2 loc_Exact), m2, e1.
    pose proof (@Zdigits2_le_of_lt_pow m2 24 ltac:(lia) ltac:(lia) ltac:(lia)).
    unfold shr_fexp. rewrite fexp32.
    assert (Hn : Z.max (Zdigits2 m2 + e1 - 24) (-149) - e1 <= 0) by lia.
    repeat split; try lia.
    destruct (Z.max (Zdigits2 m2 + e1 - 24) (-149) - e1); [reflexivity | lia | reflexivity].
Qed.

(** What [binary_round_aux] returns, in canonical position. *)
Lemma binary_round_aux_spec (s : bool) (m e : Z) (l : location) :
  0 <= m -> e <= -149 \/ 2 ^ 23 <= m ->
  exists m3 e3,
    binary_round_aux 24 128 s m e l = pack32 s m3 e3
    /\ canonical32 m3 e3
    /\ (e3 = fexp 24 128 (Zdigits2 m + e)
        \/ (m3 = 2 ^ 23 /\ e3 = fexp 24 128 (Zdigits2 m + e) + 1)).
Proof.
  intros Hm Hpre.
  destruct (@shr_fexp_canonical m e l Hm Hpre)
    as (mrs & n & Hshr & Hn & He & Hmrs & Hcanon).
  destruct (@shr_fexp_after_rounding (m / 2 ^ n)
              (round_nearest_even (shr_m mrs) (loc_of_shr_record mrs))
              (e + n) Hcanon)
    as (mrs2 & m3 & e3 & Hshr2 & Hm3 & Hcanon3 & Hcase).
  { rewrite Hmrs. apply round_nearest_even_step. }
  exists m3, e3. unfold binary_round_aux. rewrite Hshr, Hshr2, Hm3.
  split; [| split; [exact Hcanon3 |]].
  - unfold pack32. destruct m3; reflexivity.
  - rewrite <- He. destruct Hcase as [[_ ->] | [-> ->]]; auto.
Qed.

Lemma canonical32_mantissa (m : positive) (e : Z) :
  canonical_mantissa 24 128 m e = true <-> canonical32 (Zpos m) e.
Proof.
  unfold canonical_mantissa, canonical32. rewrite Z.eqb_eq, fexp32.
  pose proof (digits2_pos_bounds m) as Hb.
  assert (Hd : 0 < Zpos (digits2_pos m)) by lia.
  split.
  - intros Heq. split; [split; [lia |] | split; [lia |]].
    + pose proof (@pow2_le (Zpos (digits2_pos m)) 24 ltac:(lia)). lia.
    + destruct (Z.eq_dec e (-149)); [now left | right].
      replace (Zpos (digits2_pos m)) with 24 in Hb by lia.
      exact (proj1 Hb).
  - intros (Hm & He & Hn).
    pose proof (@Zdigits2_le_of_lt_pow (Zpos m) 24 ltac:(lia) ltac:(lia) ltac:(lia)) as Hle.
    cbn [Zdigits2] in Hle.
    destruct Hn as [-> | Hbig]; [lia |].
    pose proof (@Zdigits2_ge_of_pow_le (Zpos m) 23 ltac:(lia) Hbig) as Hge.
    cbn [Zdigits2] in Hge. lia.
Qed.

Lemma valid_binary_finite (s : bool) (m : positive) (e : Z) :
  valid_binary 24 128 (S754_finite s m e) = true
  <-> canonical32 (Zpos m) e /\ e <= 104.
Proof.
  cbn [valid_binary]. unfold bounded.
  rewrite andb_true_iff, canonical32_mantissa, Z.leb_le.
  change (128 - 24) with 104. reflexivity.
Qed.

Lemma pack32_valid (s : bool) (m e : Z) :
  canonical32 m e -> valid_binary 24 128 (pack32 s m e) = true.
Proof.
  intros Hc. unfold pack32. destruct m as [| p | p]; [reflexivity | | reflexivity].
  destruct (e <=? 104) eqn:He; [| reflexivity].
  apply valid_binary_finite. split; [exact Hc | now apply Z.leb_le].
Qed.

Lemma binary_round_aux_valid (s : bool) (m e : Z) (l : location) :
  0 <= m -> e <= -149 \/ 2 ^ 23 <= m ->
  valid_binary 24 128 (binary_round_aux 24 128 s m e l) = true.
Proof.
  intros Hm Hpre.
  destruct (@binary_round_aux_spec s m e l Hm Hpre) as (m3 & e3 & -> & Hc & _).
  now apply pack32_valid.
Qed.

(** ** Division *)

Lemma div_eucl_div_mod (a b : Z) : Z.div_eucl a b = (a / b, a mod b).
Proof. unfold Z.div, Z.modulo. destruct (Z.div_eucl a b); reflexivity. Qed.

Lemma SFdiv_core_binary_eq (m1 e1 m2 e2 : Z) :
  SFdiv_core_binary 24 128 m1 e1 m2 e2
  = ((m1 * 2 ^ (e1 - e2 - Z.min (fexp 24 128 (Zdigits2 m1 + e1 - (Zdigits2 m2 + e2))) (e1 - e2))) / m2,
     Z.min (fexp 24 128 (Zdigits2 m1 + e1 - (Zdigits2 m2 + e2))) (e1 - e2),
     new_location m2
       ((m1 * 2 ^ (e1 - e2 - Z.min (fexp 24 128 (Zdigits2 m1 + e1 - (Zdigits2 m2 + e2))) (e1 - e2))) mod m2)).
Proof.
  unfold SFdiv_core_binary.
  set (e' := Z.min (fexp 24 128 (Zdigits2 m1 + e1 - (Zdigits2 m2 + e2))) (e1 - e2)).
  assert (Hs : 0 <= e1 - e2 - e') by (unfold e'; lia).
  destruct (e1 - e2 - e') as [| p | p] eqn:Es; [| | lia].
  - rewrite Z.pow_0_r, Z.mul_1_r, div_eucl_div_mod. reflexivity.
  - rewrite Z.shiftl_mul_pow2 by lia. rewrite div_eucl_div_mod. reflexivity.
Qed.

Lemma new_location_zero (n : Z) : new_location n 0 = loc_Exact.
Proof.
  unfold new_location, new_location_even, new_location_odd.
  destruct (Z.even n); reflexivity.
Qed.

(** The quotient mantissa and exponent that [SFdiv] hands to the
    rounding step. *)
Lemma SFdiv_core_bounds (ma mp : positive) (ea ep : Z) :
  canonical32 (Zpos ma) ea -> canonical32 (Zpos mp) ep ->
  exists q e' l,
    SFdiv_core_binary 24 128 (Zpos ma) ea (Zpos mp) ep = (q, e', l)
    /\ 0 <= q
    /\ (e' <= -149 \/ 2 ^ 23 <= q)
    /\ (ea < ep \/ (ea = ep /\ Zpos ma < Zpos mp) ->
        q < 2 ^ (- e') /\ e' <= -24).
Proof.
  intros (Hma & Hea & Hna) (Hmp & Hep & Hnp).
  rewrite SFdiv_core_binary_eq.
  set (d1 := Zdigits2 (Zpos ma)). set (d2 := Zdigits2 (Zpos mp)).
  destruct (@Zdigits2_bounds (Zpos ma) ltac:(lia)) as [Hd1 Hb1].
  destruct (@Zdigits2_bounds (Zpos mp) ltac:(lia)) as [Hd2 Hb2].
  fold d1 in Hd1, Hb1. fold d2 in Hd2, Hb2.
  pose proof (@Zdigits2_le_of_lt_pow (Zpos ma) 24 ltac:(lia) ltac:(lia) ltac:(lia)) as Hd1u.
  pose proof (@Zdigits2_le_of_lt_pow (Zpos mp) 24 ltac:(lia) ltac:(lia) ltac:(lia)) as Hd2u.
  fold d1 in Hd1u. fold d2 in Hd2u.
  rewrite fexp32.
  set (e' := Z.min (Z.max (d1 + ea - (d2 + ep) - 24) (-149)) (ea - ep)).
  set (s := ea - ep - e').
  assert (Hs : 0 <= s) by (unfold s, e'; lia).
  pose proof (pow2_pos Hs) as Hps.
  eexists _, _, _. split; [reflexivity |].
  split; [apply Z.div_pos; nia |]. split.
  - destruct (Z_le_gt_dec e' (-149)) as [Hlow | Hhigh]; [now left | right].
    assert (Hsl : d2 - d1 + 24 <= s) by (unfold s, e' in *; lia).
    apply Z.div_le_lower_bound; [lia |].
    assert (H1 : Zpos mp * 2 ^ 23 <= 2 ^ d2 * 2 ^ 23) by nia.
    rewrite <- pow2_split in H1 by lia.
    assert (H2 : 2 ^ (d1 - 1) * 2 ^ (d2 - d1 + 24) <= Zpos ma * 2 ^ s).
    { pose proof (@pow2_le (d2 - d1 + 24) s Hsl).
      pose proof (@pow2_pos (d2 - d1 + 24) ltac:(lia)).
      pose proof (@pow2_pos (d1 - 1) ltac:(lia)). nia. }
    rewrite <- pow2_split in H2 by lia.
    replace (d1 - 1 + (d2 - d1 + 24)) with (d2 + 23) in H2 by lia. lia.
  - intros Hlt.
    assert (Hx : d1 + ea - (d2 + ep) <= 0).
    { destruct Hlt as [Hlt | [Heq Hlt]].
      - assert (2 ^ 23 <= Zpos mp) by lia.
        pose proof (@Zdigits2_ge_of_pow_le (Zpos mp) 23 ltac:(lia) ltac:(assumption)).
        fold d2 in H0. lia.
      - pose proof (@Zdigits2_mono (Zpos ma) (Zpos mp) ltac:(lia) ltac:(lia)).
        fold d1 d2 in H. lia. }
    assert (He' : e' <= -24) by (unfold e'; lia).
    split; [| exact He'].
    apply Z.div_lt_upper_bound; [lia |].
    replace (- e') with (s + (ep - ea)) by (unfold s; lia).
    rewrite pow2_split by lia.
    assert (Hv : Zpos ma < Zpos mp * 2 ^ (ep - ea)).
    { destruct Hlt as [Hlt | [Heq Hlt]].
      - assert (2 ^ 23 <= Zpos mp) by lia.
        pose proof (@pow2_le 1 (ep - ea) ltac:(lia)) as Hp1.
        change (2 ^ 1) with 2 in Hp1. nia.
      - replace (ep - ea) with 0 by lia. lia. }
    nia.
Qed.

Lemma SFdiv_finite_valid (sa sp : bool) (ma mp : positive) (ea ep : Z) :
  canonical32 (Zpos ma) ea -> canonical32 (Zpos mp) ep ->
  valid_binary 24 128
    (SFdiv 24 128 (S754_finite sa ma ea) (S754_finite sp mp ep)) = true.
Proof.
  intros Ha Hp.
  destruct (SFdiv_core_bounds Ha Hp) as (q & e' & l & Hcore & Hq & Hpre & _).
  cbn [SFdiv]. rewrite Hcore. now apply binary_round_aux_valid.
Qed.

(** A quotient by a finite non-zero divisor is a binary32 value. *)
Lemma SFdiv_valid (x : spec_float) (sp : bool) (mp : positive) (ep : Z) :
  valid_binary 24 128 x = true ->
  valid_binary 24 128 (S754_finite sp mp ep) = true ->
  valid_binary 24 128 (SFdiv 24 128 x (S754_finite sp mp ep)) = true.
Proof.
  intros Hx Hp. apply valid_binary_finite in Hp. destruct Hp as [Hp _].
  destruct x as [sx | sx | | sx mx ex]; try reflexivity.
  apply valid_binary_finite in Hx. destruct Hx as [Hx _].
  now apply SFdiv_finite_valid.
Qed.

Lemma pack32_at_most_one (m e : Z) :
  canonical32 m e -> e <= -24 \/ (m = 2 ^ 23 /\ e <= -23) ->
  at_most_one32 (pack32 false m e).
Proof.
  intros (Hm & He & Hn) Hsmall. unfold pack32, at_most_one32, le32.
  destruct m as [| p | p]; [right; reflexivity | | lia].
  replace (e <=? 104) with true by (symmetry; apply Z.leb_le; lia).
  destruct (Z_lt_ge_dec e (-23)) as [Hlt | Hge].
  - right. unfold SFltb, SFcompare, one32.
    destruct (Z.compare_spec e (-23)); (reflexivity || lia).
  - left. assert (e = -23) by lia. assert (Hp : Zpos p = 2 ^ 23) by lia.
    subst e. unfold one32. f_equal. change (2 ^ 23) with (Zpos 8388608) in Hp.
    now inversion Hp.
Qed.

(** A smaller magnitude over a larger one is at most one. *)
Lemma SFdiv_below (ma mp : positive) (ea ep : Z) :
  canonical32 (Zpos ma) ea -> canonical32 (Zpos mp) ep ->
  ea < ep \/ (ea = ep /\ Zpos ma < Zpos mp) ->
  at_most_one32
    (SFdiv 24 128 (S754_finite false ma ea) (S754_finite false mp ep)).
Proof.
  intros Ha Hp Hlt.
  destruct (SFdiv_core_bounds Ha Hp) as (q & e' & l & Hcore & Hq & Hpre & Hb).
  destruct (Hb Hlt) as [Hqb He'].
  cbn [SFdiv]. rewrite Hcore. cbn [xorb].
  destruct (@binary_round_aux_spec false q e' l Hq Hpre)
    as (m3 & e3 & -> & Hc & Hcase).
  apply pack32_at_most_one; [exact Hc |].
  pose proof (@Zdigits2_le_of_lt_pow q (- e') Hq ltac:(lia) Hqb) as Hd.
  rewrite fexp32 in Hcase. lia.
Qed.

(** [x / x = 1] *)
Lemma SFdiv_self (m : positive) (e : Z) :
  SFdiv 24 128 (S754_finite false m e) (S754_finite false m e) = one32.
Proof.
  cbn [SFdiv]. rewrite SFdiv_core_binary_eq.
  replace (Zdigits2 (Zpos m) + e - (Zdigits2 (Zpos m) + e)) with 0 by lia.
  rewrite Z.sub_diag.
  change (Z.min (fexp 24 128 0) 0) with (-24).
  change (0 - -24) with 24.
  rewrite (Z.mul_comm (Zpos m)), Z.mod_mul, Z.div_mul by lia.
  rewrite new_location_zero. reflexivity.
Qed.

(** Rounding leaves a binary32 value as it is. *)
Lemma binary_round_aux_exact (s : bool) (m : positive) (e : Z) :
  canonical32 (Zpos m) e -> e <= 104 ->
  binary_round_aux 24 128 s (Zpos m) e loc_Exact = S754_finite s m e.
Proof.
  intros Hc He. pose proof Hc as (Hm & Hlow & Hn).
  pose proof (proj2 (canonical32_mantissa m e) Hc) as Hcm.
  unfold canonical_mantissa in Hcm. apply Z.eqb_eq in Hcm.
  unfold binary_round_aux, shr_fexp. cbn [Zdigits2]. rewrite Hcm, Z.sub_diag.
  cbn [shr shr_record_of_loc shr_m loc_of_shr_record round_nearest_even Zdigits2].
  rewrite Hcm, Z.sub_diag. cbn [shr shr_record_of_loc shr_m].
  change (128 - 24) with 104.
  now replace (e <=? 104) with true by (symmetry; apply Z.leb_le; lia).
Qed.

(** So does rounding its double at the exponent below. *)
Lemma binary_round_aux_double (s : bool) (m : positive) (e : Z) :
  canonical32 (Zpos m) e -> 2 ^ 23 <= Zpos m -> e <= 104 ->
  binary_round_aux 24 128 s (Zpos m~0) (e - 1) loc_Exact = S754_finite s m e.
Proof.
  intros Hc Hbig He. pose proof Hc as (Hm & Hlow & Hn).
  assert (Hd : Zpos (digits2_pos m) = 24).
  { pose proof (@Zdigits2_le_of_lt_pow (Zpos m) 24 ltac:(lia) ltac:(lia) ltac:(lia)) as Hle.
    pose proof (@Zdigits2_ge_of_pow_le (Zpos m) 23 ltac:(lia) Hbig) as Hge.
    cbn [Zdigits2] in Hle, Hge. lia. }
  unfold binary_round_aux, shr_fexp. cbn [Zdigits2 digits2_pos].
  rewrite Pos2Z.inj_succ, Hd, fexp32.
  replace (Z.max (Z.succ 24 + (e - 1) - 24) (-149) - (e - 1)) with 1 by lia.
  cbn [shr shr_record_of_loc iter_pos shr_1 orb shr_m loc_of_shr_record
       round_nearest_even Zdigits2].
  rewrite Hd, fexp32.
  replace (Z.max (24 + (e - 1 + 1) - 24) (-149) - (e - 1 + 1)) with 0 by lia.
  cbn [shr shr_record_of_loc shr_m]. change (128 - 24) with 104.
  replace (e - 1 + 1 <=? 104) with true by (symmetry; apply Z.leb_le; lia).
  f_equal. lia.
Qed.

(** [x / 1 = x] *)
Lemma SFdiv_one (x : spec_float) :
  valid_binary 24 128 x = true -> SFdiv 24 128 x one32 = x.
Proof.
  intros Hx. unfold one32.
  destruct x as [s | s | | s m e]; cbn [SFdiv]; try reflexivity;
    try (now rewrite xorb_false_r).
  apply valid_binary_finite in Hx. destruct Hx as [Hc He].
  pose proof Hc as (Hm & Hlow & Hn).
  rewrite SFdiv_core_binary_eq, xorb_false_r.
  change (Zdigits2 8388608) with 24. rewrite fexp32.
  pose proof (@Zdigits2_le_of_lt_pow (Zpos m) 24 ltac:(lia) ltac:(lia) ltac:(lia)) as Hle.
  destruct (@Zdigits2_bounds (Zpos m) ltac:(lia)) as [Hd0 _].
  destruct (Z.eq_dec e (-149)) as [-> | Hne].
  - replace (Z.min (Z.max (Zdigits2 (Zpos m) + -149 - (24 + -23) - 24) (-149))
                   (-149 - -23)) with (-149) by lia.
    change (-149 - -23 - -149) with 23.
    change (2 ^ 23) with 8388608.
    rewrite Z.mod_mul, Z.div_mul by lia.
    rewrite new_location_zero. now apply binary_round_aux_exact.
  - assert (Hbig : 2 ^ 23 <= Zpos m) by lia.
    pose proof (@Zdigits2_ge_of_pow_le (Zpos m) 23 ltac:(lia) Hbig) as Hge.
    replace (Z.min (Z.max (Zdigits2 (Zpos m) + e - (24 + -23) - 24) (-149))
                   (e - -23)) with (e - 1) by lia.
    replace (e - -23 - (e - 1)) with 24 by lia.
    change (2 ^ 24) with (2 * 8388608).
    rewrite Z.mul_assoc, Z.mod_mul, Z.div_mul by lia.
    rewrite new_location_zero.
    replace (Zpos m * 2) with (Zpos m~0) by lia.
    now apply binary_round_aux_double.
Qed.

Lemma SFabs_binary_round_aux (s : bool) (m e : Z) (l : location) :
  SFabs (binary_round_aux 24 128 s m e l) = binary_round_aux 24 128 false m e l.
Proof.
  unfold binary_round_aux.
  destruct (shr_fexp 24 128 m e l) as [mrs e1].
  destruct (shr_fexp 24 128 _ e1 loc_Exact) as [mrs2 e2].
  destruct (shr_m mrs2); [reflexivity | | reflexivity].
  destruct (e2 <=? 128 - 24); reflexivity.
Qed.

(** [|x / p| = |x| / p] for a positive finite [p]. *)
Lemma SFabs_div (x : spec_float) (mp : positive) (ep : Z) :
  SFabs (SFdiv 24 128 x (S754_finite false mp ep))
  = SFdiv 24 128 (SFabs x) (S754_finite false mp ep).
Proof.
  destruct x as [s | s | | s m e]; try reflexivity.
  cbn [SFabs SFdiv].
  destruct (SFdiv_core_binary 24 128 (Zpos m) e (Zpos mp) ep) as [[q e'] l].
  apply SFabs_binary_round_aux.
Qed.

Lemma SFabs_valid (x : spec_float) :
  valid_binary 24 128 (SFabs x) = valid_binary 24 128 x.
Proof. destruct x; reflexivity. Qed.

(** ** Order *)

Lemma SFltb_finite (m1 m2 : positive) (e1 e2 : Z) :
  SFltb (S754_finite false m1 e1) (S754_finite false m2 e2) = true
  <-> e1 < e2 \/ (e1 = e2 /\ Zpos m1 < Zpos m2).
Proof.
  unfold SFltb, SFcompare.
  change (Pos.compare_cont Eq m1 m2) with (Pos.compare m1 m2).
  destruct (Z.compare_spec e1 e2) as [He | He | He].
  - destruct (Pos.compare_spec m1 m2) as [Hm | Hm | Hm]; split;
      intros H; try discriminate; try reflexivity; lia.
  - split; intros; [lia | reflexivity].
  - split; intros; [discriminate | lia].
Qed.

Lemma SFabs_nonneg (x : spec_float) : x <> S754_nan -> nonneg32 (SFabs x).
Proof. destruct x; cbn; intros H; try exact I. now apply H. Qed.

Lemma SFltb_trans (x y z : spec_float) :
  nonneg32 x -> nonneg32 y -> nonneg32 z ->
  SFltb x y = true -> SFltb y z = true -> SFltb x z = true.
Proof.
  intros Hx Hy Hz.
  destruct x as [[] | [] | | [] m1 e1]; try contradiction;
  destruct y as [[] | [] | | [] m2 e2]; try contradiction;
  destruct z as [[] | [] | | [] m3 e3]; try contradiction;
    try (intros; reflexivity); try (intros; discriminate).
  rewrite !SFltb_finite. lia.
Qed.

Lemma SFltb_total (x y : spec_float) :
  nonneg32 x -> nonneg32 y -> SFltb x y = false -> le32 y x.
Proof.
  intros Hx Hy. unfold le32.
  destruct x as [[] | [] | | [] m1 e1]; try contradiction;
  destruct y as [[] | [] | | [] m2 e2]; try contradiction;
    try (intros; left; reflexivity); try (intros; right; reflexivity);
    try (intros; discriminate).
  intros Hnlt. rewrite SFltb_finite.
  assert (Hn : ~ (e1 < e2 \/ (e1 = e2 /\ Zpos m1 < Zpos m2))).
  { intros H. apply SFltb_finite in H. congruence. }
  destruct (Z.eq_dec e1 e2) as [-> | He].
  - destruct (Pos.eq_dec m1 m2) as [-> | Hm]; [now left | right; lia].
  - right. lia.
Qed.

Lemma le32_trans (x y z : spec_float) :
  nonneg32 x -> nonneg32 y -> nonneg32 z ->
  le32 x y -> le32 y z -> le32 x z.
Proof.
  intros Hx Hy Hz [-> | Hxy] [-> | Hyz]; unfold le32; auto.
  right. apply SFltb_trans with (y := y); assumption.
Qed.

Lemma float32_maximum_nonneg (x y : spec_float) :
  nonneg32 x -> nonneg32 y ->
  float32_maximum x y = (if SFltb x y then y else x).
Proof.
  intros Hx Hy. unfold float32_maximum.
  destruct x as [[] | [] | | [] ? ?]; try contradiction;
  destruct y as [[] | [] | | [] ? ?]; try contradiction; reflexivity.
Qed.

(** [np.max] of non-negative values: one of them, and above all. *)
Lemma fold_maximum_spec (l : list spec_float) (acc : spec_float) :
  Forall nonneg32 l -> nonneg32 acc ->
  nonneg32 (fold_left float32_maximum l acc)
  /\ (fold_left float32_maximum l acc = acc
      \/ In (fold_left float32_maximum l acc) l)
  /\ le32 acc (fold_left float32_maximum l acc)
  /\ Forall (fun x => le32 x (fold_left float32_maximum l acc)) l.
Proof.
  intros Hl. revert acc. induction Hl as [| y l Hy Hl IH]; intros acc Hacc.
  - cbn. repeat split; auto. now left.
  - cbn [fold_left].
    assert (Hstep : nonneg32 (float32_maximum acc y)
                    /\ (float32_maximum acc y = acc \/ float32_maximum acc y = y)
                    /\ le32 acc (float32_maximum acc y)
                    /\ le32 y (float32_maximum acc y)).
    { rewrite float32_maximum_nonneg by assumption.
      destruct (SFltb acc y) eqn:Hlt.
      - repeat split; auto; [now right | now left].
      - repeat split; auto; [now left | now apply SFltb_total]. }
    destruct Hstep as (Hn & Hsel & Hacc' & Hy').
    destruct (IH _ Hn) as (Hr & Hin & Hle & Hall).
    split; [exact Hr |]. split; [| split].
    + destruct Hin as [-> | Hin]; [| right; now right].
      destruct Hsel as [-> | ->]; [now left | right; now left].
    + apply le32_trans with (y := float32_maximum acc y); assumption.
    + constructor; [| exact Hall].
      apply le32_trans with (y := float32_maximum acc y); assumption.
Qed.

(** [np.max] propagates NaN. *)
Lemma fold_maximum_nan (l : list spec_float) (acc : spec_float) :
  acc = S754_nan \/ In S754_nan l ->
  fold_left float32_maximum l acc = S754_nan.
Proof.
  revert acc. induction l as [| y l IH]; intros acc [Hacc | Hin].
  - exact Hacc.
  - contradiction.
  - cbn [fold_left]. apply IH. left. now subst acc.
  - cbn [fold_left]. destruct Hin as [-> | Hin].
    + apply IH. left. unfold float32_maximum. now destruct acc.
    + apply IH. now right.
Qed.

Lemma float32_maximum_at_most_one (x y : spec_float) :
  at_most_one32 x -> at_most_one32 y ->
  at_most_one32 (float32_maximum x y)
  /\ (x = one32 \/ y = one32 -> float32_maximum x y = one32).
Proof.
  unfold at_most_one32, le32.
  intros [-> | Hx] [-> | Hy].
  - split; [now left | reflexivity].
  - split; [left | intros _].
    all: destruct y as [[] | [] | | [] m e]; try discriminate; try reflexivity.
    all: apply SFltb_finite in Hy; unfold float32_maximum, one32; cbn [float32_is_nan];
      replace (SFltb (S754_finite false 8388608 (-23)) (S754_finite false m e))
        with false; try reflexivity;
      symmetry; apply not_true_is_false; rewrite SFltb_finite; lia.
  - split; [left | intros _].
    all: unfold float32_maximum; rewrite Hx;
      destruct x; try discriminate; reflexivity.
  - split.
    + unfold float32_maximum.
      destruct (float32_is_nan x); [now right |].
      destruct (float32_is_nan y); [now right |].
      destruct (SFltb x y); now right.
    + intros [-> | ->]; discriminate.
Qed.

(** [np.max] of values at most one, one of which is one. *)
Lemma fold_maximum_one (l : list spec_float) (acc : spec_float) :
  Forall at_most_one32 l -> at_most_one32 acc ->
  acc = one32 \/ In one32 l ->
  fold_left float32_maximum l acc = one32.
Proof.
  intros Hl. revert acc. induction Hl as [| y l Hy Hl IH]; intros acc Hacc Hone.
  - destruct Hone as [Hone | []]. exact Hone.
  - cbn [fold_left].
    destruct (float32_maximum_at_most_one Hacc Hy) as [Hm Heq].
    apply IH; [exact Hm |].
    destruct Hone as [Hone | [Hone | Hone]].
    + left. apply Heq. now left.
    + left. apply Heq. right. now symmetry.
    + now right.
Qed.
End Binary32.

Section PeakOnBinary32.

Lemma zero_below_peak (peak : spec_float) :
  fltb fzero peak = true ->
  peak = S754_infinity false
  \/ exists mp ep, peak = S754_finite false mp ep.
Proof.
  destruct peak as [[] | [] | | [] mp ep]; try discriminate.
  - now left.
  - right. now exists mp, ep.
Qed.

(** The peak is the magnitude of a sample, and no magnitude exceeds
    it. *)
Lemma np_max_abs_binary32 (audio : list spec_float) (peak : spec_float) :
  np_max (np_abs audio) = Ok peak ->
  fltb fzero peak = true ->
  (exists x, In x audio /\ SFabs x = peak)
  /\ Forall (fun x => le32 (SFabs x) peak) audio.
Proof.
  unfold np_max, np_abs. destruct audio as [| x0 rest]; [discriminate |].
  cbn [map]. intros Hpeak Hpos. inversion Hpeak as [Hfold]. clear Hpeak.
  change (@fmaximum spec_float float32_ops) with float32_maximum in *.
  change (@fabs spec_float float32_ops) with SFabs in *.
  assert (Hnan : forall x, In x (x0 :: rest) -> x <> S754_nan).
  { intros x Hin ->.
    assert (Hn : fold_left float32_maximum (map SFabs rest) (SFabs x0)
                 = S754_nan).
    { apply fold_maximum_nan. destruct Hin as [-> | Hin]; [now left | right].
      change S754_nan with (SFabs S754_nan). now apply in_map. }
    rewrite Hn in Hfold. subst peak. discriminate Hpos. }
  assert (Hall : Forall nonneg32 (map SFabs rest)).
  { apply Forall_forall. intros a Ha. apply in_map_iff in Ha.
    destruct Ha as (x & <- & Hx). apply SFabs_nonneg, Hnan. now right. }
  assert (H0 : nonneg32 (SFabs x0)) by (apply SFabs_nonneg, Hnan; now left).
  destruct (@fold_maximum_spec _ _ Hall H0) as (_ & Hin & Hle & Hup).
  rewrite Hfold in Hin, Hle, Hup |- *. split.
  - destruct Hin as [Heq | Hin].
    + exists x0. split; [now left | now symmetry].
    + apply in_map_iff in Hin. destruct Hin as (x & Hx & Hin).
      exists x. split; [now right | exact Hx].
  - constructor; [exact Hle |]. now apply Forall_map in Hup.
Qed.

(** Dividing by a finite peak: the quotients are [float32] values of
    magnitude at most one, and their peak is one. *)
Lemma divide_by_finite_peak (audio : list spec_float)
    (mp : positive) (ep : Z) :
  Forall (fun x => valid_binary 24 128 x = true) audio ->
  np_max (np_abs audio) = Ok (S754_finite false mp ep) ->
  np_max (np_abs (map (fun x => fdiv x (S754_finite false mp ep)) audio))
  = Ok one32
  /\ Forall (fun x =>
       valid_binary 24 128 (fdiv x (S754_finite false mp ep)) = true
       /\ at_most_one32 (fabs (fdiv x (S754_finite false mp ep)))) audio.
Proof.
  intros Hvalid Hpeak.
  destruct (np_max_abs_binary32 _ Hpeak eq_refl) as [(xp & Hxp & Hxpeak) Hle].
  change (@fdiv spec_float float32_ops) with (SFdiv 24 128).
  change (@fabs spec_float float32_ops) with SFabs.
  rewrite Forall_forall in Hvalid, Hle.
  assert (Hvp : valid_binary 24 128 (S754_finite false mp ep) = true).
  { rewrite <- Hxpeak, SFabs_valid. now apply Hvalid. }
  pose proof (proj1 (proj1 (valid_binary_finite _ _ _) Hvp)) as Hcp.
  assert (Hquot : forall x, In x audio ->
            valid_binary 24 128 (SFdiv 24 128 x (S754_finite false mp ep)) = true
            /\ at_most_one32
                 (SFabs (SFdiv 24 128 x (S754_finite false mp ep)))).
  { intros x Hx. split; [apply SFdiv_valid; [now apply Hvalid | exact Hvp] |].
    rewrite SFabs_div.
    destruct (Hle x Hx) as [Heq | Hlt].
    - rewrite Heq, SFdiv_self. now left.
    - pose proof (Hvalid x Hx) as Hvx.
      destruct x as [s | s | | s m e]; cbn [SFabs] in Hlt |- *;
        try discriminate.
      + right. reflexivity.
      + apply SFdiv_below; [| exact Hcp | now apply SFltb_finite].
        exact (proj1 (proj1 (valid_binary_finite _ _ _) Hvx)). }
  split; [| now apply Forall_forall].
  unfold np_max, np_abs. destruct audio as [| x0 rest]; [discriminate |].
  cbn [map]. f_equal.
  change (@fmaximum spec_float float32_ops) with float32_maximum.
  rewrite map_map. apply fold_maximum_one.
  - apply Forall_forall. intros a Ha. apply in_map_iff in Ha.
    destruct Ha as (x & <- & Hx). apply Hquot. now right.
  - apply Hquot. now left.
  - assert (Hone : SFabs (SFdiv 24 128 xp (S754_finite false mp ep)) = one32)
      by (now rewrite SFabs_div, Hxpeak, SFdiv_self).
    destruct Hxp as [-> | Hxp]; [now left | right].
    rewrite <- Hone.
    exact (in_map (fun x => SFabs (SFdiv 24 128 x (S754_finite false mp ep)))
                  rest xp Hxp).
Qed.

(** Dividing by an infinite peak: the sample that is infinite becomes
    NaN, and NaN is the next peak. *)
Lemma divide_by_infinite_peak (audio : list spec_float) :
  np_max (np_abs audio) = Ok (S754_infinity false) ->
  np_max (np_abs (map (fun x => fdiv x (S754_infinity false)) audio))
  = Ok S754_nan.
Proof.
  intros Hpeak.
  destruct (np_max_abs_binary32 _ Hpeak eq_refl) as [(xp & Hxp & Hxpeak) _].
  change (@fdiv spec_float float32_ops) with (SFdiv 24 128).
  assert (Hnan : SFabs (SFdiv 24 128 xp (S754_infinity false)) = S754_nan)
    by (destruct xp; try discriminate; reflexivity).
  unfold np_max, np_abs. destruct audio as [| x0 rest]; [discriminate |].
  cbn [map]. f_equal.
  change (@fmaximum spec_float float32_ops) with float32_maximum.
  change (@fabs spec_float float32_ops) with SFabs.
  rewrite map_map. apply fold_maximum_nan.
  destruct Hxp as [-> | Hxp]; [now left | right].
  rewrite <- Hnan.
  exact (in_map (fun x => SFabs (SFdiv 24 128 x (S754_infinity false)))
                rest xp Hxp).
Qed.

Lemma magnitude_at_most_one (y : spec_float) :
  at_most_one32 (SFabs y) ->
  SFleb (float32_of_Z (-1)) y = true /\ SFleb y (float32_of_Z 1) = true.
Proof.
  change (float32_of_Z (-1)) with (S754_finite true 8388608 (-23)).
  change (float32_of_Z 1) with one32.
  unfold at_most_one32, le32, one32.
  destruct y as [[] | [] | | s m e]; cbn [SFabs];
    intros [Heq | Hlt]; try discriminate; try (split; reflexivity).
  - inversion Heq; subst. destruct s; split; reflexivity.
  - apply SFltb_finite in Hlt. unfold SFleb, SFcompare.
    change (Pos.compare_cont Eq 8388608 m) with (Pos.compare 8388608 m).
    change (Pos.compare_cont Eq m 8388608) with (Pos.compare m 8388608).
    destruct s; split; try reflexivity.
    + destruct (Z.compare_spec (-23) e); try lia; try reflexivity.
      destruct (Pos.compare_spec 8388608 m); try lia; reflexivity.
    + destruct (Z.compare_spec e (-23)); try lia; try reflexivity.
      destruct (Pos.compare_spec m 8388608); try lia; reflexivity.
Qed.
End PeakOnBinary32.

(* ================================================================= *)
(** * The pipeline's contract *)

Section Contract.
Context {F : Type} `{NumOps F} `{SqrtOp F} `{Librosa F} `{StartupReport}.

(** C1.  A request whose file name passes the format check and whose
    bytes decode to a waveform with root-mean-square energy
    [sqrt(mean(sample^2))] below [MIN_AUDIO_ENERGY = 0.001] is
    answered with [valid = false] and the "too quiet" message; the
    only library call made for it is the load: no MFCC or delta is
    computed, and neither the scaler nor the classifier is called. *)
Theorem quiet_audio_is_rejected (file : UploadFile) (w : World F)
    (m : Classifier F) (le : LabelEncoder) (s : Scaler F)
    (audio : list F) :
  model w = Some m -> label_encoder w = Some le -> scaler w = Some s ->
  endswith (filename file) ".wav" = true ->
  librosa_decode (content file) = Ok audio ->
  fltb (audio_energy audio) (of_Q MIN_AUDIO_ENERGY) = true ->
  exists resp w',
    predict_emotion file w = (Ok resp, w')
    /\ valid resp = false
    /\ error resp
       = Some "Invalid audio: File is too quiet, corrupted, or not a valid audio format"
    /\ calls w' = calls w ++ [LibrosaLoad (tmp_name w ++ ".wav")%string].
Proof.
  intros Hm Hle Hs Hwav Hdecode Hquiet. unfold predict_emotion.
  rewrite bind_run. unfold get. rewrite Hm, Hle, Hs, Hwav. cbn [negb].
  set (tmp := (tmp_name w ++ ".wav")%string).
  unfold try_except. rewrite bind_run. unfold write_file, get.
  rewrite bind_run. unfold set_files at 1. cbn beta iota.
  rewrite bind_run. unfold extract_features.
  rewrite bind_run, preprocess_audio_run. cbn [files].
  rewrite String.eqb_refl, Hdecode, Hquiet.
  unfold ret at 1. rewrite bind_run. unfold os_unlink, get.
  rewrite bind_run. cbn [files record_call].
  rewrite String.eqb_refl. unfold set_files, ret.
  eexists _, _. split; [reflexivity |]. cbn. auto.
Qed.

(** C2, as the code has it.  [load_models] raises when [joblib.load]
    raises for one of the three files, or when the report of lines
    61-62 raises; in that last case the three globals are already
    assigned.  Otherwise it returns and the globals hold what was
    loaded.  The artifacts are not compared with one another: whatever
    their class counts, three files that load and can be reported
    start the service. *)
Theorem load_models_checks_loading_only (w : World F) :
  match emotion_classifier_joblib (models w),
        label_encoder_joblib (models w),
        scaler_joblib (models w) with
  | Ok c, Ok le, Ok s =>
      match announce le with
      | Ok _ =>
          exists w',
            load_models w = (Ok tt, w')
            /\ model w' = Some c
            /\ label_encoder w' = Some le
            /\ scaler w' = Some s
      | Raise e =>
          exists w',
            load_models w = (Raise e, w')
            /\ model w' = Some c
            /\ label_encoder w' = Some le
            /\ scaler w' = Some s
      end
  | Raise e, _, _ | Ok _, Raise e, _ | Ok _, Ok _, Raise e =>
      exists w', load_models w = (Raise e, w')
  end.
Proof.
  unfold load_models, try_except, bind, get, lift, raise, ret,
    set_model, set_label_encoder, set_scaler.
  destruct (emotion_classifier_joblib (models w)) as [c | e]; cbn;
    [| eauto].
  destruct (label_encoder_joblib (models w)) as [le | e]; cbn; [| eauto].
  destruct (scaler_joblib (models w)) as [s | e]; cbn; [| eauto].
  destruct (announce le) as [[] | e]; cbn; eauto.
Qed.

(** C3.  Length normalisation yields exactly [target_length]
    [= int(16000 * 3.5) = round(16000 * 3.5) = 56000] samples for
    every waveform: a shorter one is followed by zeros, a longer one
    is cut to its first [target_length] samples.  Every waveform that
    [preprocess_audio] returns has that length. *)
Theorem length_normalization (audio : list F) :
  length (fix_length audio) = target_length
  /\ Z.of_nat target_length = 56000%Z
  /\ py_round (inject_Z SAMPLE_RATE * DURATION) = 56000%Z
  /\ ((length audio < target_length)%nat ->
      fix_length audio
      = audio ++ repeat fzero (target_length - length audio))
  /\ ((target_length <= length audio)%nat ->
      fix_length audio = firstn target_length audio)
  /\ (forall p (w w' : World F) out,
        preprocess_audio p w = (Ok (Some out), w') ->
        length out = target_length).
Proof.
  split; [apply fix_length_length |].
  split; [apply target_length_value |].
  split; [rewrite target_length_round; apply target_length_value |].
  split; [apply fix_length_short |].
  split; [apply fix_length_long |].
  intros p w w' out. rewrite preprocess_audio_run. intros Hrun.
  inversion Hrun as [[Hout Hw]]. clear Hrun Hw.
  destruct (files w p) as [bytes |]; [| discriminate].
  destruct (librosa_decode bytes) as [samples | e]; [| discriminate].
  destruct (fltb (audio_energy samples) (of_Q MIN_AUDIO_ENERGY));
    [discriminate |].
  destruct (normalize_amplitude (fix_length samples)) as [out' | e] eqn:Hn;
    [| discriminate].
  inversion Hout. subst out'.
  rewrite (normalize_amplitude_length _ Hn). apply fix_length_length.
Qed.

(** C4.  Given librosa's shapes ([mfcc] returns [n_mfcc] rows, [delta]
    as many rows as it is given), a feature vector returned by
    [extract_features] has 240 entries and is the concatenation, in
    this order, of the row means and row standard deviations of the
    MFCC matrix of the preprocessed waveform, of its delta and of its
    delta-delta. *)
Theorem feature_vector_layout (p : string) (w w' : World F)
    (features : list F) :
  (forall y sr n m, librosa_mfcc y sr n = Ok m -> length m = n) ->
  (forall m order d, librosa_delta m order = Ok d -> length d = length m) ->
  extract_features p w = (Ok (Some features), w') ->
  length features = 240%nat
  /\ exists audio mfccs mfcc_delta mfcc_delta2,
       fst (preprocess_audio p w) = Ok (Some audio)
       /\ librosa_mfcc audio SAMPLE_RATE N_MFCC = Ok mfccs
       /\ librosa_delta mfccs 1 = Ok mfcc_delta
       /\ librosa_delta mfccs 2 = Ok mfcc_delta2
       /\ features
          = np_mean_axis1 mfccs ++ np_std_axis1 mfccs
            ++ np_mean_axis1 mfcc_delta ++ np_std_axis1 mfcc_delta
            ++ np_mean_axis1 mfcc_delta2 ++ np_std_axis1 mfcc_delta2.
Proof.
  intros Hmfcc Hdelta. unfold extract_features. rewrite bind_run.
  destruct (preprocess_audio p w) as [[[audio |] | e] w1];
    try (unfold ret; discriminate).
  unfold bind, call, ret.
  destruct (librosa_mfcc audio SAMPLE_RATE N_MFCC) as [mfccs | e] eqn:Hm;
    [| discriminate].
  destruct (librosa_delta mfccs 1) as [d1 | e] eqn:Hd1; [| discriminate].
  destruct (librosa_delta mfccs 2) as [d2 | e] eqn:Hd2; [| discriminate].
  intros Hrun. inversion Hrun as [[Hfeat Hw]]. clear Hrun Hw.
  apply Hmfcc in Hm as Hrows.
  apply Hdelta in Hd1 as Hrows1. apply Hdelta in Hd2 as Hrows2.
  split.
  - unfold np_mean_axis1, np_std_axis1.
    rewrite !length_app, !length_map, Hrows1, Hrows2, Hrows.
    reflexivity.
  - exists audio, mfccs, d1, d2. auto.
Qed.

(** C5.  In a successful response the confidence is the value that
    the probability mapping holds for the predicted label (the labels
    of the decoder being pairwise distinct, as those of a fitted
    [LabelEncoder] are). *)
Theorem confidence_is_probability_of_label (file : UploadFile)
    (w w' : World F) (le : LabelEncoder) (resp : PredictionResponse F) :
  label_encoder w = Some le ->
  NoDup (classes_ le) ->
  predict_emotion file w = (Ok resp, w') ->
  valid resp = true ->
  dict_get (all_probabilities resp) (emotion resp) = Some (confidence resp).
Proof.
  intros Hle Hnd Hrun Hvalid.
  destruct (model w) as [m |] eqn:Hm.
  2:{ unfold predict_emotion in Hrun. rewrite bind_run in Hrun.
      unfold get in Hrun. rewrite Hm in Hrun. discriminate. }
  destruct (scaler w) as [s |] eqn:Hs.
  2:{ unfold predict_emotion in Hrun. rewrite bind_run in Hrun.
      unfold get in Hrun. rewrite Hm, Hle, Hs in Hrun. discriminate. }
  destruct (predict_emotion_cases file w Hm Hle Hs)
    as (resp0 & w0 & Hrun0 & Hcases).
  rewrite Hrun in Hrun0. inversion Hrun0. subst resp0 w0.
  destruct Hcases as [(msg & -> & _) | Hok]; [discriminate |].
  destruct Hok as (X & predictions & prediction & probas & probabilities
                   & emotions & _ & _ & _ & _ & Hinv & Hemo & Hconf
                   & Hall & _ & _).
  destruct (inverse_transform_one _ _ Hinv Hemo) as [Hpos Hlabel].
  apply getitem_nonneg in Hconf; [| exact Hpos].
  destruct (all_probs_of_spec _ _ Hnd Hall) as (Hlen & Hkeys & Hvalues).
  apply dict_get_nth with (j := Z.to_nat prediction).
  - rewrite Hkeys. now apply NoDup_firstn_prefix.
  - rewrite Hkeys, nth_error_firstn.
    assert (Hlt : (Z.to_nat prediction < length probabilities)%nat).
    { apply nth_error_Some. congruence. }
    apply Nat.ltb_lt in Hlt. now rewrite Hlt.
  - now rewrite Hvalues.
Qed.
(** C6, as the code has it.  In a successful response (the labels of
    the decoder being pairwise distinct) the keys of the probability
    mapping are the first [k] labels of the decoder, each once, and
    its values are the classifier's probability vector in order,
    where [k] is the length of that vector and does not exceed the
    number of labels.  The mapping holds every label exactly when [k]
    is the number of labels, and its sum is the sum of the
    classifier's vector. *)
Theorem probability_mapping_layout (file : UploadFile) (w w' : World F)
    (m : Classifier F) (le : LabelEncoder) (resp : PredictionResponse F) :
  model w = Some m ->
  label_encoder w = Some le ->
  NoDup (classes_ le) ->
  predict_emotion file w = (Ok resp, w') ->
  valid resp = true ->
  exists X probas probabilities,
    predict_proba m X = Ok probas
    /\ index0 probas = Ok probabilities
    /\ (length probabilities <= length (classes_ le))%nat
    /\ dict_keys (all_probabilities resp)
       = firstn (length probabilities) (classes_ le)
    /\ dict_values (all_probabilities resp) = probabilities
    /\ NoDup (dict_keys (all_probabilities resp))
    /\ ((forall label, In label (classes_ le) ->
           In label (dict_keys (all_probabilities resp)))
        <-> length probabilities = length (classes_ le))
    /\ np_sum (dict_values (all_probabilities resp)) = np_sum probabilities.
Proof.
  intros Hm Hle Hnd Hrun Hvalid.
  destruct (scaler w) as [s |] eqn:Hs.
  2:{ unfold predict_emotion in Hrun. rewrite bind_run in Hrun.
      unfold get in Hrun. rewrite Hm, Hle, Hs in Hrun. discriminate. }
  destruct (predict_emotion_cases file w Hm Hle Hs)
    as (resp0 & w0 & Hrun0 & Hcases).
  rewrite Hrun in Hrun0. inversion Hrun0. subst resp0 w0.
  destruct Hcases as [(msg & -> & _) | Hok]; [discriminate |].
  destruct Hok as (X & predictions & prediction & probas & probabilities
                   & emotions & _ & _ & Hpp & Hpp0 & _ & _ & _
                   & Hall & _ & _).
  destruct (all_probs_of_spec _ _ Hnd Hall) as (Hlen & Hkeys & Hvalues).
  exists X, probas, probabilities.
  repeat (split; [assumption |]).
  split; [rewrite Hkeys; now apply NoDup_firstn_prefix |].
  split; [| now rewrite Hvalues].
  rewrite Hkeys. split.
  - intros Hall_in.
    destruct (Nat.eq_dec (length probabilities) (length (classes_ le)))
      as [| Hne]; [assumption | exfalso].
    assert (Hlt : (length probabilities < length (classes_ le))%nat) by lia.
    apply nth_error_Some in Hlt.
    destruct (nth_error (classes_ le) (length probabilities))
      as [label |] eqn:Hnth; [| congruence].
    apply (@nth_error_not_in_firstn _ _ _ _ Hnd Hnth).
    apply Hall_in. eapply nth_error_In. exact Hnth.
  - intros ->. now rewrite firstn_all.
Qed.

(** C7.  With the models loaded, [predict_emotion] returns a response
    for every request, whatever the decoder, the feature extraction,
    the scaler, the classifier and the label decoder return or raise:
    either a success without message, or a failure with a message
    that is not empty. *)
Theorem predict_never_raises (file : UploadFile) (w : World F) :
  model w <> None -> label_encoder w <> None -> scaler w <> None ->
  exists resp w',
    predict_emotion file w = (Ok resp, w')
    /\ ((valid resp = true /\ error resp = None)
        \/ (valid resp = false
            /\ exists msg, error resp = Some msg /\ msg <> "")).
Proof.
  intros Hm Hle Hs.
  destruct (model w) as [m |] eqn:Em; [| congruence].
  destruct (label_encoder w) as [le |] eqn:Ele; [| congruence].
  destruct (scaler w) as [s |] eqn:Es; [| congruence].
  destruct (predict_emotion_cases file w Em Ele Es)
    as (resp & w' & Hrun & Hcases).
  exists resp, w'. split; [exact Hrun |].
  destruct Hcases as [(msg & -> & Hmsg) | Hok].
  - right. split; [reflexivity |]. exists msg. now split.
  - left. destruct Hok as (? & ? & ? & ? & ? & ? & Hok).
    tauto.
Qed.

(** C10.  Every response with [valid = false] has the empty string as
    emotion, confidence [0.0] and an empty probability mapping. *)
Theorem failures_share_payload (file : UploadFile) (w w' : World F)
    (resp : PredictionResponse F) :
  predict_emotion file w = (Ok resp, w') ->
  valid resp = false ->
  emotion resp = ""
  /\ confidence resp = fzero
  /\ all_probabilities resp = [].
Proof.
  intros Hrun Hvalid.
  destruct (model w) as [m |] eqn:Hm.
  2:{ unfold predict_emotion in Hrun. rewrite bind_run in Hrun.
      unfold get in Hrun. rewrite Hm in Hrun. discriminate. }
  destruct (label_encoder w) as [le |] eqn:Hle.
  2:{ unfold predict_emotion in Hrun. rewrite bind_run in Hrun.
      unfold get in Hrun. rewrite Hm, Hle in Hrun. discriminate. }
  destruct (scaler w) as [s |] eqn:Hs.
  2:{ unfold predict_emotion in Hrun. rewrite bind_run in Hrun.
      unfold get in Hrun. rewrite Hm, Hle, Hs in Hrun. discriminate. }
  destruct (predict_emotion_cases file w Hm Hle Hs)
    as (resp0 & w0 & Hrun0 & Hcases).
  rewrite Hrun in Hrun0. inversion Hrun0. subst resp0 w0.
  destruct Hcases as [(msg & -> & _) | Hok].
  - cbn. auto.
  - destruct Hok as (? & ? & ? & ? & ? & ? & Hok).
    assert (valid resp = true) by tauto. congruence.
Qed.
End Contract.

(** In exact arithmetic, where nothing rounds, normalising twice is
    normalising once. *)
Lemma peak_normalization_on_rationals (audio : list Qc) (peak : Qc) :
  np_max (np_abs audio) = Ok peak ->
  peak <> Q2Qc 0 ->
  exists once,
    normalize_amplitude audio = Ok once
    /\ normalize_amplitude once = Ok once.
Proof.
  intros Hpeak Hnz.
  apply normalize_amplitude_twice with (peak := peak).
  - exact Qc_one_positive.
  - exact Qc_div_one.
  - exact Qc_div_self.
  - exact Qc_abs_div.
  - exact Qc_maximum_div.
  - exact Hpeak.
  - apply Qc_ltb_lt.
    destruct (Qcle_lt_or_eq _ _ (peak_nonnegative _ Hpeak)) as [Hlt | Heq].
    + exact Hlt.
    + exfalso. apply Hnz. symmetry. exact Heq.
Qed.

(** C8.  Peak normalisation is idempotent on the [float32] arrays of
    the source: for every waveform of [float32] values whose peak
    [np.max(np.abs(audio))] is greater than zero, lines 45-46 divide
    every sample by the peak, and applied to that result they return
    it unchanged.  With a finite peak the second peak is exactly one
    and every quotient divided by one is itself; with an infinite peak
    a quotient is NaN, the second peak is NaN, and the second pass
    divides nothing. *)
Theorem peak_normalization_idempotent
    (audio : list spec_float) (peak : spec_float) :
  Forall (fun x => valid_binary 24 128 x = true) audio ->
  np_max (np_abs audio) = Ok peak ->
  fltb fzero peak = true ->
  exists once,
    once = map (fun x => fdiv x peak) audio
    /\ normalize_amplitude audio = Ok once
    /\ normalize_amplitude once = Ok once.
Proof.
  intros Hvalid Hpeak Hpos.
  exists (map (fun x => fdiv x peak) audio). split; [reflexivity |]. split.
  - unfold normalize_amplitude, rbind. now rewrite Hpeak, Hpos.
  - unfold normalize_amplitude, rbind.
    destruct (zero_below_peak _ Hpos) as [-> | (mp & ep & ->)].
    + now rewrite (divide_by_infinite_peak _ Hpeak).
    + destruct (divide_by_finite_peak Hvalid Hpeak) as [Hone Hquot].
      rewrite Hone. change (fltb fzero one32) with true. cbv iota.
      f_equal. rewrite map_map.
      apply map_ext_in. intros x Hx.
      rewrite Forall_forall in Hquot.
      apply SFdiv_one, Hquot, Hx.
Qed.

(* ================================================================= *)
(** * The contract at work *)

Section AtWork.
Import Demo.

Lemma labels8_distinct : NoDup (classes_ labels8).
Proof.
  unfold labels8, classes_.
  repeat (constructor; [cbn; intuition discriminate |]). constructor.
Qed.

Lemma demo_mfcc_rows (y : list float) (sr : Z) (n : nat)
    (m : list (list float)) :
  librosa_mfcc y sr n = Ok m -> length m = n.
Proof.
  cbn. intros Hm. inversion Hm. apply repeat_length.
Qed.

Lemma demo_delta_rows (m : list (list float)) (order : nat)
    (d : list (list float)) :
  librosa_delta m order = Ok d -> length d = length m.
Proof.
  cbn. intros Hd. inversion Hd. apply length_map.
Qed.

(** A silent clip is turned away after the load. *)
Lemma quiet_audio_is_rejected_witness :
  model (serving classifier8) = Some classifier8
  /\ label_encoder (serving classifier8) = Some labels8
  /\ scaler (serving classifier8) = Some identity_scaler
  /\ endswith (filename silence) ".wav" = true
  /\ librosa_decode (content silence) = Ok [0; 0; 0]%float
  /\ fltb (audio_energy [0; 0; 0]%float) (of_Q MIN_AUDIO_ENERGY) = true
  /\ exists resp w',
       predict_emotion silence (serving classifier8) = (Ok resp, w')
       /\ valid resp = false
       /\ error resp
          = Some "Invalid audio: File is too quiet, corrupted, or not a valid audio format"
       /\ calls w'
          = calls (serving classifier8)
            ++ [LibrosaLoad (tmp_name (serving classifier8) ++ ".wav")%string].
Proof.
  assert (Hm : model (serving classifier8) = Some classifier8)
    by reflexivity.
  assert (Hle : label_encoder (serving classifier8) = Some labels8)
    by reflexivity.
  assert (Hs : scaler (serving classifier8) = Some identity_scaler)
    by reflexivity.
  assert (Hwav : endswith (filename silence) ".wav" = true) by reflexivity.
  assert (Hdec : librosa_decode (content silence) = Ok [0; 0; 0]%float)
    by (vm_compute; reflexivity).
  assert (Hq : fltb (audio_energy [0; 0; 0]%float) (of_Q MIN_AUDIO_ENERGY)
               = true) by (vm_compute; reflexivity).
  repeat (split; [assumption |]).
  exact (quiet_audio_is_rejected silence (serving classifier8)
           Hm Hle Hs Hwav Hdec Hq).
Defined.

(** C2, as stated, fails: a classifier over six classes and a label
    decoder over eight start the service, and a request is then
    answered with a prediction. *)
Lemma mismatched_artifacts_start_the_service :
  n_classes classifier6 = 6%nat
  /\ length (classes_ labels8) = 8%nat
  /\ (forall X, exists ps,
        predict_proba classifier6 X = Ok [ps] /\ length ps = 6%nat)
  /\ load_models (at_boot classifier6) = (Ok tt, serving classifier6)
  /\ model (serving classifier6) = Some classifier6
  /\ label_encoder (serving classifier6) = Some labels8
  /\ exists resp w',
       predict_emotion speech (serving classifier6) = (Ok resp, w')
       /\ valid resp = true.
Proof.
  split; [reflexivity |]. split; [reflexivity |].
  split; [intros X; eexists; split; reflexivity |].
  split; [reflexivity |]. split; [reflexivity |]. split; [reflexivity |].
  eexists _, _. split; [vm_compute; reflexivity | reflexivity].
Qed.

(** Three artifacts that load, and a report that cannot be printed:
    startup fails with the globals assigned. *)
Example report_failure_stops_startup :
  exists w',
    @load_models float Cases.report_without_classes (at_boot classifier8)
    = (Raise (Exception "'dict' object has no attribute 'classes_'"), w')
    /\ model w' = Some classifier8
    /\ label_encoder w' = Some labels8.
Proof.
  eexists. split; [reflexivity |]. split; reflexivity.
Qed.

(** A clip on disk yields 240 features. *)
Lemma feature_vector_layout_witness :
  (forall y sr n (m : list (list float)),
      librosa_mfcc y sr n = Ok m -> length m = n)
  /\ (forall (m : list (list float)) order d,
        librosa_delta m order = Ok d -> length d = length m)
  /\ exists features w',
       extract_features "/tmp/clip.wav" (serving_later classifier8)
       = (Ok (Some features), w')
       /\ length features = 240%nat
       /\ exists audio mfccs mfcc_delta mfcc_delta2,
            fst (preprocess_audio "/tmp/clip.wav"
                   (serving_later classifier8)) = Ok (Some audio)
            /\ librosa_mfcc audio SAMPLE_RATE N_MFCC = Ok mfccs
            /\ librosa_delta mfccs 1 = Ok mfcc_delta
            /\ librosa_delta mfccs 2 = Ok mfcc_delta2
            /\ features
               = np_mean_axis1 mfccs ++ np_std_axis1 mfccs
                 ++ np_mean_axis1 mfcc_delta ++ np_std_axis1 mfcc_delta
                 ++ np_mean_axis1 mfcc_delta2 ++ np_std_axis1 mfcc_delta2.
Proof.
  split; [exact demo_mfcc_rows |]. split; [exact demo_delta_rows |].
  assert (Hrun : exists features w',
    extract_features "/tmp/clip.wav" (serving_later classifier8)
    = (Ok (Some features), w'))
    by (eexists _, _; vm_compute; reflexivity).
  destruct Hrun as (features & w' & Hrun).
  exists features, w'. split; [exact Hrun |].
  exact (feature_vector_layout "/tmp/clip.wav" (serving_later classifier8)
           demo_mfcc_rows demo_delta_rows Hrun).
Defined.

(** A clip with signal: the confidence is read back from the
    mapping. *)
Lemma confidence_is_probability_of_label_witness :
  label_encoder (serving classifier8) = Some labels8
  /\ NoDup (classes_ labels8)
  /\ exists resp w',
       predict_emotion speech (serving classifier8) = (Ok resp, w')
       /\ valid resp = true
       /\ dict_get (all_probabilities resp) (emotion resp)
          = Some (confidence resp).
Proof.
  split; [reflexivity |]. split; [exact labels8_distinct |].
  assert (Hrun : exists resp w',
    predict_emotion speech (serving classifier8) = (Ok resp, w')
    /\ valid resp = true)
    by (eexists _, _; split; [vm_compute; reflexivity | reflexivity]).
  destruct Hrun as (resp & w' & Hrun & Hvalid).
  exists resp, w'. split; [exact Hrun |]. split; [exact Hvalid |].
  exact (confidence_is_probability_of_label speech (serving classifier8)
           (eq_refl : label_encoder (serving classifier8) = Some labels8)
           labels8_distinct Hrun Hvalid).
Defined.

(** C6, as stated, fails: with the six-class classifier the response
    is a success and its mapping has no entry for two of the eight
    labels of the decoder. *)
Lemma mapping_can_miss_labels :
  exists resp w',
    predict_emotion speech (serving classifier6) = (Ok resp, w')
    /\ valid resp = true
    /\ label_encoder (serving classifier6) = Some labels8
    /\ In "surprised" (classes_ labels8)
    /\ ~ In "surprised" (dict_keys (all_probabilities resp)).
Proof.
  eexists _, _. split; [vm_compute; reflexivity |].
  split; [reflexivity |]. split; [reflexivity |].
  split; [cbn; tauto |].
  cbn. intuition discriminate.
Qed.

Lemma probability_mapping_layout_witness :
  model (serving classifier6) = Some classifier6
  /\ label_encoder (serving classifier6) = Some labels8
  /\ NoDup (classes_ labels8)
  /\ exists resp w',
       predict_emotion speech (serving classifier6) = (Ok resp, w')
       /\ valid resp = true
       /\ exists X probas probabilities,
            predict_proba classifier6 X = Ok probas
            /\ index0 probas = Ok probabilities
            /\ (length probabilities <= length (classes_ labels8))%nat
            /\ dict_keys (all_probabilities resp)
               = firstn (length probabilities) (classes_ labels8)
            /\ dict_values (all_probabilities resp) = probabilities
            /\ NoDup (dict_keys (all_probabilities resp))
            /\ ((forall label, In label (classes_ labels8) ->
                   In label (dict_keys (all_probabilities resp)))
                <-> length probabilities = length (classes_ labels8))
            /\ np_sum (dict_values (all_probabilities resp))
               = np_sum probabilities.
Proof.
  split; [reflexivity |]. split; [reflexivity |].
  split; [exact labels8_distinct |].
  assert (Hrun : exists resp w',
    predict_emotion speech (serving classifier6) = (Ok resp, w')
    /\ valid resp = true)
    by (eexists _, _; split; [vm_compute; reflexivity | reflexivity]).
  destruct Hrun as (resp & w' & Hrun & Hvalid).
  exists resp, w'. split; [exact Hrun |]. split; [exact Hvalid |].
  exact (probability_mapping_layout speech (serving classifier6)
           (eq_refl : model (serving classifier6) = Some classifier6)
           (eq_refl : label_encoder (serving classifier6) = Some labels8)
           labels8_distinct Hrun Hvalid).
Defined.

(** Bytes that do not decode are answered with a failure. *)
Lemma predict_never_raises_witness :
  model (serving classifier8) <> None
  /\ label_encoder (serving classifier8) <> None
  /\ scaler (serving classifier8) <> None
  /\ exists resp w',
       predict_emotion garbage (serving classifier8) = (Ok resp, w')
       /\ ((valid resp = true /\ error resp = None)
           \/ (valid resp = false
               /\ exists msg, error resp = Some msg /\ msg <> "")).
Proof.
  assert (Hm : model (serving classifier8) <> None) by discriminate.
  assert (Hle : label_encoder (serving classifier8) <> None)
    by discriminate.
  assert (Hs : scaler (serving classifier8) <> None) by discriminate.
  repeat (split; [assumption |]).
  exact (predict_never_raises garbage (serving classifier8) Hm Hle Hs).
Defined.

(** The same clip, served now and later, gets the same answer. *)
Lemma predict_is_deterministic_witness :
  model (serving classifier8) = model (serving_later classifier8)
  /\ label_encoder (serving classifier8)
     = label_encoder (serving_later classifier8)
  /\ scaler (serving classifier8) = scaler (serving_later classifier8)
  /\ fst (predict_emotion speech (serving classifier8))
     = fst (predict_emotion speech (serving_later classifier8)).
Proof.
  split; [reflexivity |]. split; [reflexivity |]. split; [reflexivity |].
  exact (predict_is_deterministic speech
           (serving classifier8) (serving_later classifier8)
           eq_refl eq_refl eq_refl).
Defined.

Lemma failures_share_payload_witness :
  exists resp w',
    predict_emotion garbage (serving classifier8) = (Ok resp, w')
    /\ valid resp = false
    /\ emotion resp = ""
    /\ confidence resp = fzero
    /\ all_probabilities resp = [].
Proof.
  assert (Hrun : exists resp w',
    predict_emotion garbage (serving classifier8) = (Ok resp, w')
    /\ valid resp = false)
    by (eexists _, _; split; [vm_compute; reflexivity | reflexivity]).
  destruct Hrun as (resp & w' & Hrun & Hvalid).
  exists resp, w'. split; [exact Hrun |]. split; [exact Hvalid |].
  exact (failures_share_payload garbage (serving classifier8) Hrun Hvalid).
Defined.

(** The peak of 49, 7, -3 is 49. *)
Lemma peak_normalization_idempotent_witness :
  Forall (fun x => valid_binary 24 128 x = true) samples32
  /\ np_max (np_abs samples32) = Ok (float32_of_Z 49)
  /\ fltb fzero (float32_of_Z 49) = true
  /\ exists once,
       once = map (fun x => fdiv x (float32_of_Z 49)) samples32
       /\ normalize_amplitude samples32 = Ok once
       /\ normalize_amplitude once = Ok once.
Proof.
  assert (Hvalid : Forall (fun x => valid_binary 24 128 x = true) samples32)
    by (repeat constructor).
  assert (Hpeak : np_max (np_abs samples32) = Ok (float32_of_Z 49))
    by reflexivity.
  assert (Hpos : fltb fzero (float32_of_Z 49) = true) by reflexivity.
  split; [exact Hvalid |]. split; [exact Hpeak |]. split; [exact Hpos |].
  exact (peak_normalization_idempotent Hvalid Hpeak Hpos).
Defined.

(** The same waveform, computed: 7/49 is rounded to
    [9586981 * 2^-26], and the second pass returns what the first
    returned. *)
Example peak_normalization_on_float32 :
  normalize_amplitude samples32
  = Ok [one32; S754_finite false 9586981 (-26);
        S754_finite true 16434824 (-28)]
  /\ normalize_amplitude
       [one32; S754_finite false 9586981 (-26);
        S754_finite true 16434824 (-28)]
     = Ok [one32; S754_finite false 9586981 (-26);
           S754_finite true 16434824 (-28)].
Proof.
  split; vm_compute; reflexivity.
Qed.

(** An infinite sample: its quotient is NaN, and the pass is still
    idempotent. *)
Example peak_normalization_with_infinity :
  normalize_amplitude [float32_of_Z 2; S754_infinity true]
  = Ok [S754_zero false; S754_nan]
  /\ normalize_amplitude [S754_zero false; S754_nan]
     = Ok [S754_zero false; S754_nan].
Proof.
  split; vm_compute; reflexivity.
Qed.

(** On binary64 the mean of no samples is NaN, which is not below
    the threshold: a waveform of length zero passes the gate and is
    padded to full length. *)
Example empty_waveform_passes_the_gate :
  fltb (audio_energy ([] : list float)) (of_Q MIN_AUDIO_ENERGY) = false
  /\ Z.of_nat (length (fix_length ([] : list float))) = 56000%Z.
Proof.
  split; [vm_compute; reflexivity |].
  rewrite fix_length_length. apply target_length_value.
Qed.

(** Peak normalisation run twice on binary64 samples. *)
Example peak_normalization_on_binary64 :
  let audio := [0.5; -0.375; 0.75; 0.125]%float in
  exists once,
    normalize_amplitude audio = Ok once
    /\ normalize_amplitude once = Ok once.
Proof.
  eexists. split; vm_compute; reflexivity.
Qed.
End AtWork.

(* ================================================================= *)
(** * Further properties of the code *)

(** ** What a request does to the world *)

Lemma target_length_positive : (0 < target_length)%nat.
Proof. pose proof target_length_value. lia. Qed.

Section RequestRuns.
Context {F : Type} `{NumOps F} `{SqrtOp F} `{Librosa F}.

(** Peak normalisation raises on an empty waveform only. *)
Lemma normalize_amplitude_returns (audio : list F) :
  audio <> [] -> exists out, normalize_amplitude audio = Ok out.
Proof.
  intros Hne. unfold normalize_amplitude, np_max, np_abs, rbind.
  destruct audio as [| x audio]; [congruence |]. cbn [map].
  destruct (fltb fzero (fold_left fmaximum (map fabs audio) (fabs x)));
    eauto.
Qed.

Lemma normalize_fix_length_returns (audio : list F) :
  exists out,
    normalize_amplitude (fix_length audio) = Ok out
    /\ length out = target_length.
Proof.
  destruct (@normalize_amplitude_returns (fix_length audio)) as [out Hout].
  - intros Hnil. pose proof (fix_length_length audio) as Hlen.
    rewrite Hnil in Hlen. pose proof target_length_positive. cbn in Hlen.
    lia.
  - exists out. split; [exact Hout |].
    rewrite (normalize_amplitude_length _ Hout). apply fix_length_length.
Qed.

(** The library calls that [extract_features] makes, by its outcome. *)
Lemma extract_features_calls (p : string) (w : World F) :
  match fst (extract_features p w) with
  | Ok None =>
      calls (snd (extract_features p w)) = calls w ++ [LibrosaLoad p]
  | Ok (Some _) =>
      calls (snd (extract_features p w))
      = calls w ++ [LibrosaLoad p; LibrosaMfcc; LibrosaDelta 1; LibrosaDelta 2]
  | Raise _ => True
  end.
Proof.
  unfold extract_features. rewrite bind_run, preprocess_audio_run.
  destruct (files w p) as [bytes |]; [| reflexivity].
  destruct (librosa_decode bytes) as [audio | e]; [| reflexivity].
  destruct (fltb (audio_energy audio) (of_Q MIN_AUDIO_ENERGY));
    [reflexivity |].
  destruct (normalize_amplitude (fix_length audio)) as [out | e];
    [| reflexivity].
  unfold bind, call, ret.
  destruct (librosa_mfcc out SAMPLE_RATE N_MFCC) as [m | e]; [| exact I].
  destruct (librosa_delta m 1) as [d | e]; [| exact I].
  destruct (librosa_delta m 2) as [d2 | e]; [| exact I].
  cbn. rewrite <- !app_assoc. reflexivity.
Qed.

(** The handler of [predict_emotion], with the world it leaves. *)
Lemma cleanup_world (tmp msg : string) (w : World F) :
  exists w',
    (tmp_exists <- os_path_exists tmp ;;
     (if tmp_exists then os_unlink tmp else ret tt) ;;;
     ret (failure msg)) w
    = (Ok (failure msg), w')
    /\ after_request tmp w w'
    /\ calls w' = calls w.
Proof.
  unfold bind, os_path_exists, os_unlink, get, ret, raise, set_files, bind,
    after_request.
  destruct (files w tmp) eqn:Hf; cbn; rewrite ?Hf; cbn.
  - eexists. split; [reflexivity |]. cbn. repeat split; reflexivity.
  - eexists. split; [reflexivity |]. repeat split; try reflexivity.
    intros p. destruct (String.eqb_spec p tmp) as [-> |]; auto.
Qed.

Lemma extract_features_models (p : string) (w : World F) :
  models (snd (extract_features p w)) = models w.
Proof.
  unfold extract_features. rewrite bind_run, preprocess_audio_run.
  destruct (files w p) as [bytes |]; [| reflexivity].
  destruct (librosa_decode bytes) as [audio | e]; [| reflexivity].
  destruct (fltb (audio_energy audio) (of_Q MIN_AUDIO_ENERGY));
    [reflexivity |].
  destruct (normalize_amplitude (fix_length audio)) as [out | e];
    [| reflexivity].
  unfold bind, call, ret.
  destruct (librosa_mfcc out SAMPLE_RATE N_MFCC) as [m | e];
    [| reflexivity].
  destruct (librosa_delta m 1) as [d | e]; [| reflexivity].
  destruct (librosa_delta m 2) as [d2 | e]; reflexivity.
Qed.

Lemma after_request_via (tmp : string) (w w0 w' : World F) :
  model w0 = model w -> label_encoder w0 = label_encoder w ->
  scaler w0 = scaler w -> models w0 = models w ->
  tmp_name w0 = tmp_name w ->
  (forall p, p <> tmp -> files w0 p = files w p) ->
  after_request tmp w0 w' -> after_request tmp w w'.
Proof.
  intros Hm Hle Hs Hd Ht Hf (Hm' & Hle' & Hs' & Hd' & Ht' & Hf').
  unfold after_request. repeat split; try congruence.
  intros p. rewrite Hf'.
  destruct (String.eqb_spec p tmp) as [| Hne]; [reflexivity | now apply Hf].
Qed.

Ltac handler_answers Hh w3facts :=
  cbn beta iota;
  match goal with
  | |- exists resp w', ?h ?e ?w0 = (Ok resp, w') /\ _ =>
      let w' := fresh "w'" in
      let Hrun := fresh "Hrun" in
      let Haft := fresh "Haft" in
      let Hcalls := fresh "Hcalls" in
      destruct (Hh e w0) as (w' & Hrun & Haft & Hcalls);
      eexists _, w'; split; [exact Hrun |];
      split;
      [ eapply after_request_via; [.. | exact Haft];
        cbn [model label_encoder scaler models tmp_name files record_call];
        apply w3facts
      | try (left; eexists; reflexivity) ]
  end.

(** A request that passes the two guards, step by step: the response,
    the world left behind and the calls made, by the outcome of the
    feature extraction on the temporary file. *)
Lemma predict_emotion_run (file : UploadFile) (w : World F)
    (m : Classifier F) (le : LabelEncoder) (s : Scaler F) :
  model w = Some m -> label_encoder w = Some le -> scaler w = Some s ->
  endswith (filename file) ".wav" = true ->
  exists resp w',
    predict_emotion file w = (Ok resp, w')
    /\ after_request (tmp_name w ++ ".wav") w w'
    /\ match fst (extract_features (tmp_name w ++ ".wav")
                    (snd (write_file (tmp_name w ++ ".wav")
                            (content file) w))) with
       | Ok None =>
           resp = failure
             "Invalid audio: File is too quiet, corrupted, or not a valid audio format"
           /\ calls w' = calls w ++ [LibrosaLoad (tmp_name w ++ ".wav")]
       | Raise e => resp = failure ("Processing error: " ++ str e)
       | Ok (Some _) =>
           (exists e, resp = failure ("Processing error: " ++ str e))
           \/ (success_of m le resp
               /\ calls w'
                  = calls w
                    ++ [LibrosaLoad (tmp_name w ++ ".wav"); LibrosaMfcc;
                        LibrosaDelta 1; LibrosaDelta 2; ScalerTransform;
                        ModelPredict; ModelPredictProba])
       end.
Proof.
  intros Hm Hle Hs Hwav. unfold predict_emotion.
  rewrite bind_run. unfold get at 1. rewrite Hm, Hle, Hs, Hwav.
  cbn [negb].
  set (tmp := (tmp_name w ++ ".wav")%string).
  match goal with
  | |- context [try_except _ ?h] => set (handler := h)
  end.
  assert (Hh : forall e w0, exists w',
    handler e w0 = (Ok (failure ("Processing error: " ++ str e)%string), w')
    /\ after_request tmp w0 w' /\ calls w' = calls w0)
    by (intros; apply cleanup_world).
  clearbody handler.
  unfold try_except. rewrite bind_run.
  set (w1 := {| model := model w; label_encoder := label_encoder w;
                scaler := scaler w; models := models w;
                files := fun p => if String.eqb p tmp
                                  then Some (content file) else files w p;
                tmp_name := tmp_name w; calls := calls w |}).
  change (write_file tmp (content file) w) with (Ok tt, w1).
  cbn [snd]. cbn beta iota. rewrite bind_run.
  pose proof (extract_features_world tmp w1) as Hw. cbn zeta in Hw.
  pose proof (extract_features_models tmp w1) as Hd2.
  pose proof (extract_features_calls tmp w1) as Hc.
  destruct (extract_features tmp w1) as [r2 w2].
  cbn [fst snd] in Hw, Hd2, Hc |- *.
  destruct Hw as (Hm2 & Hle2 & Hs2 & Hf2 & Ht2).
  assert (H2 : model w2 = model w /\ label_encoder w2 = label_encoder w
               /\ scaler w2 = scaler w /\ models w2 = models w
               /\ tmp_name w2 = tmp_name w
               /\ forall p, p <> tmp -> files w2 p = files w p).
  { repeat split; try assumption.
    intros p Hne. rewrite Hf2. unfold w1. cbn [files].
    apply String.eqb_neq in Hne. now rewrite Hne. }
  destruct r2 as [[features |] | e].
  - (* features extracted *)
    rewrite bind_run. unfold os_unlink at 1, get at 1. rewrite bind_run.
    rewrite Hf2. unfold w1 at 1. cbn [files].
    rewrite String.eqb_refl. unfold set_files at 1.
    match goal with
    | |- context [bind _ _ ?w0] => set (w3 := w0)
    end.
    assert (H3 : model w3 = model w /\ label_encoder w3 = label_encoder w
                 /\ scaler w3 = scaler w /\ models w3 = models w
                 /\ tmp_name w3 = tmp_name w
                 /\ forall p, p <> tmp -> files w3 p = files w p).
    { unfold w3. cbn [model label_encoder scaler models tmp_name files].
      repeat split; try tauto.
      intros p Hne. apply String.eqb_neq in Hne. rewrite Hne.
      unfold w1. cbn [files]. now rewrite Hne. }
    assert (H3' : after_request tmp w w3).
    { unfold after_request, w3.
      cbn [model label_encoder scaler models tmp_name files].
      repeat split; try tauto.
      intros p. destruct (String.eqb_spec p tmp) as [| Hne]; [reflexivity |].
      unfold w1. cbn [files]. apply String.eqb_neq in Hne. now rewrite Hne. }
    assert (Hc3 : calls w3
                  = calls w ++ [LibrosaLoad tmp; LibrosaMfcc;
                                LibrosaDelta 1; LibrosaDelta 2])
      by exact Hc.
    clearbody w3.
    unfold bind, call, lift, ret.
    destruct (transform s [features]) as [X | e];
      [| handler_answers Hh H3].
    destruct (predict m X) as [predictions | e] eqn:Hp;
      [| handler_answers Hh H3].
    destruct (index0 predictions) as [prediction | e] eqn:Hp0;
      [| handler_answers Hh H3].
    destruct (predict_proba m X) as [probas | e] eqn:Hpp;
      [| handler_answers Hh H3].
    destruct (index0 probas) as [probabilities | e] eqn:Hpp0;
      [| handler_answers Hh H3].
    destruct (inverse_transform le [prediction]) as [emotions | e] eqn:Hinv;
      [| handler_answers Hh H3].
    destruct (index0 emotions) as [emo | e] eqn:Hemo;
      [| handler_answers Hh H3].
    destruct (getitem probabilities prediction) as [conf | e] eqn:Hconf;
      [| handler_answers Hh H3].
    destruct (all_probs_of le (enumerate 0 probabilities) [])
      as [all_probs | e] eqn:Hall; [| handler_answers Hh H3].
    eexists _, _. split; [reflexivity |]. split.
    + destruct H3' as (? & ? & ? & ? & ? & ?).
      unfold after_request.
      cbn [model label_encoder scaler models tmp_name files record_call].
      tauto.
    + right. split.
      * exists X, predictions, prediction, probas, probabilities, emotions.
        cbn. repeat split; assumption.
      * cbn [calls record_call]. rewrite Hc3, <- !app_assoc. reflexivity.
  - (* the audio was turned away *)
    rewrite bind_run. unfold os_unlink at 1, get at 1. rewrite bind_run.
    rewrite Hf2. unfold w1 at 1. cbn [files].
    rewrite String.eqb_refl. unfold set_files at 1, ret.
    eexists _, _. split; [reflexivity |]. split.
    + unfold after_request.
      cbn [model label_encoder scaler models tmp_name files].
      repeat split; try tauto.
      intros p. destruct (String.eqb_spec p tmp) as [| Hne]; [reflexivity |].
      unfold w1. cbn [files]. apply String.eqb_neq in Hne. now rewrite Hne.
    + split; [reflexivity | exact Hc].
  - (* the extraction raised *)
    handler_answers Hh H2. reflexivity.
Qed.
End RequestRuns.

(** ** More on the probability mapping *)

Lemma dict_get_absent {V} (d : list (string * V)) (k : string) :
  ~ In k (dict_keys d) -> dict_get d k = None.
Proof.
  induction d as [| [k' v'] d IH]; intros Hnotin; [reflexivity |].
  cbn in *. destruct (String.eqb_spec k' k) as [-> | _].
  - exfalso. apply Hnotin. now left.
  - apply IH. intros Hin. apply Hnotin. now right.
Qed.

Lemma dict_set_keys {V} (d : list (string * V)) (k k0 : string) (v : V) :
  In k0 (dict_keys (dict_set d k v)) -> k0 = k \/ In k0 (dict_keys d).
Proof.
  induction d as [| [k' v'] d IH]; cbn.
  - intros [<- | []]. now left.
  - destruct (String.eqb_spec k' k) as [-> | _]; cbn.
    + intros [<- | Hin]; [left; reflexivity | right; now right].
    + intros [<- | Hin]; [right; now left |].
      destruct (IH Hin) as [-> | Hin']; [now left | right; now right].
Qed.

Section MappingWithoutDistinctness.
Context {F : Type}.

(** Every key of the mapping is a label of the decoder, and there are
    not more probabilities than labels; this needs no distinctness. *)
Lemma all_probs_of_listed (le : LabelEncoder) (ps : list F) :
  forall (k : nat) (acc d : list (string * F)),
    (forall key, In key (dict_keys acc) -> In key (classes_ le)) ->
    (k <= length (classes_ le))%nat ->
    all_probs_of le (enumerate (Z.of_nat k) ps) acc = Ok d ->
    (k + length ps <= length (classes_ le))%nat
    /\ forall key, In key (dict_keys d) -> In key (classes_ le).
Proof.
  induction ps as [| p ps IH]; intros k acc d Hacc Hk Hall.
  - cbn in Hall. inversion Hall. subst d. rewrite Nat.add_0_r. auto.
  - cbn [enumerate all_probs_of] in Hall. unfold rbind in Hall.
    destruct (inverse_transform le [Z.of_nat k]) as [labels | e] eqn:Hinv;
      [| discriminate].
    destruct (index0 labels) as [label | e] eqn:Hidx; [| discriminate].
    destruct (inverse_transform_one _ _ Hinv Hidx) as [_ Hnth].
    rewrite Nat2Z.id in Hnth.
    assert (Hlt : (k < length (classes_ le))%nat).
    { apply nth_error_Some. congruence. }
    replace (Z.of_nat k + 1)%Z with (Z.of_nat (S k)) in Hall by lia.
    apply IH in Hall.
    + cbn [length]. destruct Hall as [Hlen Hkeys]. split; [lia | exact Hkeys].
    + intros key Hin. apply dict_set_keys in Hin.
      destruct Hin as [-> | Hin]; [| now apply Hacc].
      eapply nth_error_In. exact Hnth.
    + lia.
Qed.
End MappingWithoutDistinctness.

(** ** More on peak normalisation, on exact rationals *)

Section RangeOnRationals.
Local Open Scope Qc_scope.

Lemma Qc_maximum_ge_l (a b : Qc) : a <= Qc_maximum a b.
Proof.
  unfold Qc_maximum. destruct (Qc_ltb a b) eqn:Hab.
  - apply Qclt_le_weak. now apply Qc_ltb_lt.
  - apply Qcle_refl.
Qed.

Lemma Qc_maximum_ge_r (a b : Qc) : b <= Qc_maximum a b.
Proof.
  unfold Qc_maximum. destruct (Qc_ltb a b) eqn:Hab.
  - apply Qcle_refl.
  - now apply Qc_ltb_ge.
Qed.

Lemma fold_maximum_ge_init (rest : list Qc) (x : Qc) :
  x <= fold_left Qc_maximum rest x.
Proof.
  revert x. induction rest as [| y rest IH]; intros x; [apply Qcle_refl |].
  cbn [fold_left]. eapply Qcle_trans; [apply Qc_maximum_ge_l | apply IH].
Qed.

Lemma fold_maximum_upper (rest : list Qc) (x y : Qc) :
  In y (x :: rest) -> y <= fold_left Qc_maximum rest x.
Proof.
  revert x. induction rest as [| z rest IH]; intros x Hin.
  - destruct Hin as [<- | []]. apply Qcle_refl.
  - cbn [fold_left]. destruct Hin as [<- | [<- | Hin]].
    + eapply Qcle_trans; [apply Qc_maximum_ge_l | apply fold_maximum_ge_init].
    + eapply Qcle_trans; [apply Qc_maximum_ge_r | apply fold_maximum_ge_init].
    + apply IH. now right.
Qed.

Lemma np_max_abs_upper (audio : list Qc) (peak x : Qc) :
  np_max (np_abs audio) = Ok peak -> In x audio -> Qcabs x <= peak.
Proof.
  unfold np_max, np_abs. destruct audio as [| a audio]; [discriminate |].
  cbn [map]. intros Hpeak Hin. inversion Hpeak as [Hfold].
  apply (@fold_maximum_upper (map Qcabs audio) (Qcabs a)).
  change (In (Qcabs x) (map Qcabs (a :: audio))). now apply in_map.
Qed.
End RangeOnRationals.

(** ** The service, request by request *)

Section Service.
Context {F : Type} `{NumOps F} `{SqrtOp F} `{Librosa F}.

(** A response with [valid = true] comes from a request that passed
    both guards and ran the whole pipeline. *)
Lemma successful_request (file : UploadFile) (w w' : World F)
    (resp : PredictionResponse F) :
  predict_emotion file w = (Ok resp, w') ->
  valid resp = true ->
  exists m le s,
    model w = Some m /\ label_encoder w = Some le /\ scaler w = Some s
    /\ endswith (filename file) ".wav" = true
    /\ success_of m le resp
    /\ after_request (tmp_name w ++ ".wav") w w'
    /\ calls w'
       = calls w
         ++ [LibrosaLoad (tmp_name w ++ ".wav"); LibrosaMfcc;
             LibrosaDelta 1; LibrosaDelta 2; ScalerTransform;
             ModelPredict; ModelPredictProba].
Proof.
  intros Hrun Hvalid.
  destruct (model w) as [m |] eqn:Hm.
  2:{ unfold predict_emotion in Hrun. rewrite bind_run in Hrun.
      unfold get in Hrun. rewrite Hm in Hrun. discriminate. }
  destruct (label_encoder w) as [le |] eqn:Hle.
  2:{ unfold predict_emotion in Hrun. rewrite bind_run in Hrun.
      unfold get in Hrun. rewrite Hm, Hle in Hrun. discriminate. }
  destruct (scaler w) as [s |] eqn:Hs.
  2:{ unfold predict_emotion in Hrun. rewrite bind_run in Hrun.
      unfold get in Hrun. rewrite Hm, Hle, Hs in Hrun. discriminate. }
  destruct (endswith (filename file) ".wav") eqn:Hwav.
  2:{ unfold predict_emotion in Hrun. rewrite bind_run in Hrun.
      unfold get in Hrun. rewrite Hm, Hle, Hs, Hwav in Hrun.
      cbn [negb] in Hrun. unfold ret in Hrun. inversion Hrun. subst resp.
      discriminate. }
  destruct (predict_emotion_run file w Hm Hle Hs Hwav)
    as (resp0 & w0 & Hrun0 & Hafter & Hcases).
  rewrite Hrun in Hrun0. inversion Hrun0. subst resp0 w0.
  exists m, le, s. repeat (split; [reflexivity || assumption |]).
  destruct (fst (extract_features _ _)) as [[features |] | e].
  - destruct Hcases as [[e ->] | [Hok Hcalls]]; [discriminate | auto].
  - destruct Hcases as [-> _]. discriminate.
  - subst resp. discriminate.
Qed.

(** X1.  Once the upload has been written to the temporary file
    (lines 119-123 are taken to succeed, so [tmp_file_path] is bound),
    a request that passed the two guards leaves no temporary file
    behind, whatever feature extraction, scaling and classification
    return or raise, and no other file is touched.  The path on which
    creating or writing the file raises is outside the model. *)
Theorem temporary_file_is_removed (file : UploadFile) (w : World F)
    (m : Classifier F) (le : LabelEncoder) (s : Scaler F) :
  model w = Some m -> label_encoder w = Some le -> scaler w = Some s ->
  endswith (filename file) ".wav" = true ->
  exists resp w',
    predict_emotion file w = (Ok resp, w')
    /\ files w' (tmp_name w ++ ".wav")%string = None
    /\ forall p, p <> (tmp_name w ++ ".wav")%string -> files w' p = files w p.
Proof.
  intros Hm Hle Hs Hwav.
  destruct (predict_emotion_run file w Hm Hle Hs Hwav)
    as (resp & w' & Hrun & Hafter & _).
  exists resp, w'. split; [exact Hrun |].
  destruct Hafter as (_ & _ & _ & _ & _ & Hfiles). split.
  - rewrite Hfiles. now rewrite String.eqb_refl.
  - intros p Hne. rewrite Hfiles. apply String.eqb_neq in Hne.
    now rewrite Hne.
Qed.

(** X2.  A file name that does not end in [.wav] is refused before
    anything happens: no file is written and no library is called. *)
Theorem wrong_format_is_refused_untouched (file : UploadFile) (w : World F)
    (m : Classifier F) (le : LabelEncoder) (s : Scaler F) :
  model w = Some m -> label_encoder w = Some le -> scaler w = Some s ->
  endswith (filename file) ".wav" = false ->
  predict_emotion file w
  = (Ok (failure "Invalid file format. Please upload a .wav file"), w).
Proof.
  intros Hm Hle Hs Hwav. unfold predict_emotion. rewrite bind_run.
  unfold get. rewrite Hm, Hle, Hs, Hwav. reflexivity.
Qed.

(** X3.  No request changes the loaded models or the model directory,
    whether it is answered or raises. *)
Theorem request_keeps_models (file : UploadFile) (w : World F) :
  model (snd (predict_emotion file w)) = model w
  /\ label_encoder (snd (predict_emotion file w)) = label_encoder w
  /\ scaler (snd (predict_emotion file w)) = scaler w
  /\ models (snd (predict_emotion file w)) = models w.
Proof.
  destruct (model w) as [m |] eqn:Hm.
  2:{ unfold predict_emotion. rewrite bind_run. unfold get. rewrite Hm.
      cbn. auto. }
  destruct (label_encoder w) as [le |] eqn:Hle.
  2:{ unfold predict_emotion. rewrite bind_run. unfold get.
      rewrite Hm, Hle. cbn. auto. }
  destruct (scaler w) as [s |] eqn:Hs.
  2:{ unfold predict_emotion. rewrite bind_run. unfold get.
      rewrite Hm, Hle, Hs. cbn. auto. }
  destruct (endswith (filename file) ".wav") eqn:Hwav.
  - destruct (predict_emotion_run file w Hm Hle Hs Hwav)
      as (resp & w' & Hrun & Hafter & _).
    rewrite Hrun. cbn [snd].
    destruct Hafter as (Hm' & Hle' & Hs' & Hd' & _).
    rewrite Hm', Hle', Hs', Hd'. auto.
  - unfold predict_emotion. rewrite bind_run. unfold get.
    rewrite Hm, Hle, Hs, Hwav. cbn. auto.
Qed.

(** X4.  What [/predict] reports, [/emotions] lists: after a successful
    prediction, [get_emotions] returns a list that holds the predicted
    emotion and every key of the probability mapping, and its count is
    the length of that list. *)
Theorem reported_labels_are_listed (file : UploadFile) (w w' : World F)
    (resp : PredictionResponse F) :
  predict_emotion file w = (Ok resp, w') ->
  valid resp = true ->
  exists listing,
    get_emotions w' = (Ok listing, w')
    /\ In (emotion resp) (emotions listing)
    /\ (forall key, In key (dict_keys (all_probabilities resp)) ->
          In key (emotions listing))
    /\ count listing = Z.of_nat (length (emotions listing)).
Proof.
  intros Hrun Hvalid.
  destruct (successful_request file w Hrun Hvalid)
    as (m & le & s & _ & Hle & _ & _ & Hok & Hafter & _).
  destruct Hafter as (_ & Hle' & _).
  destruct Hok as (X & predictions & prediction & probas & probabilities
                   & decoded & _ & _ & _ & _ & Hinv & Hemo & _
                   & Hall & _ & _).
  eexists. split.
  - unfold get_emotions. rewrite bind_run. unfold get.
    rewrite Hle', Hle. reflexivity.
  - cbn [emotions count]. split; [| split; [| reflexivity]].
    + destruct (inverse_transform_one _ _ Hinv Hemo) as [_ Hnth].
      eapply nth_error_In. exact Hnth.
    + apply (@all_probs_of_listed F le probabilities 0 []
               (all_probabilities resp));
        [intros key [] | lia | exact Hall].
Qed.

(** X5.  On a successful prediction the trace of calls to [librosa],
    the scaler and the classifier grows by seven entries, one per
    stage and in pipeline order: load, MFCC, delta, delta-delta,
    [scaler.transform], [predict], [predict_proba].  The trace does
    not record [label_encoder.inverse_transform], which the handler
    calls once for the label and once per probability. *)
Theorem success_calls_each_stage_once (file : UploadFile) (w w' : World F)
    (resp : PredictionResponse F) :
  predict_emotion file w = (Ok resp, w') ->
  valid resp = true ->
  calls w'
  = calls w
    ++ [LibrosaLoad (tmp_name w ++ ".wav"); LibrosaMfcc;
        LibrosaDelta 1; LibrosaDelta 2; ScalerTransform;
        ModelPredict; ModelPredictProba].
Proof.
  intros Hrun Hvalid.
  destruct (successful_request file w Hrun Hvalid)
    as (m & le & s & _ & _ & _ & _ & _ & _ & Hcalls).
  exact Hcalls.
Qed.
End Service.

Lemma nth_error_not_in_shorter_prefix {A} (l : list A) (i k : nat) (x : A) :
  NoDup l -> nth_error l i = Some x -> (k <= i)%nat -> ~ In x (firstn k l).
Proof.
  intros Hnd Hi Hle Hin.
  apply In_nth_error in Hin. destruct Hin as [j Hj].
  rewrite nth_error_firstn in Hj.
  destruct (Nat.ltb_spec j k) as [Hlt |]; [| discriminate].
  assert (j = i); [| lia].
  apply (proj1 (NoDup_nth_error l) Hnd).
  - apply nth_error_Some. congruence.
  - congruence.
Qed.

Section Answers.
Context {F : Type} `{NumOps F} `{SqrtOp F} `{Librosa F} `{StartupReport}.

(** X6.  A decoded waveform that is not below the energy threshold is
    always preprocessed: length and peak normalisation cannot fail on
    it, and the result has [target_length] samples.  This covers the
    waveform of no samples on binary64, whose energy is NaN. *)
Theorem loud_audio_is_preprocessed (p : string) (w : World F)
    (bytes : list Byte.byte) (audio : list F) :
  files w p = Some bytes ->
  librosa_decode bytes = Ok audio ->
  fltb (audio_energy audio) (of_Q MIN_AUDIO_ENERGY) = false ->
  exists out,
    preprocess_audio p w = (Ok (Some out), record_call (LibrosaLoad p) w)
    /\ normalize_amplitude (fix_length audio) = Ok out
    /\ length out = target_length.
Proof.
  intros Hfile Hdecode Hloud.
  destruct (normalize_fix_length_returns audio) as (out & Hout & Hlen).
  exists out. rewrite preprocess_audio_run, Hfile, Hdecode, Hloud, Hout.
  auto.
Qed.

(** X7.  In a successful response the indices are within bounds: the
    predicted index is not negative and lies below the length of the
    probability vector, which does not exceed the number of labels;
    the emotion is the label and the confidence the probability at
    that index.  A negative prediction never gives a success, although
    Python's indexing would accept it. *)
Theorem success_needs_indices_in_range (file : UploadFile) (w w' : World F)
    (resp : PredictionResponse F) :
  predict_emotion file w = (Ok resp, w') ->
  valid resp = true ->
  exists m le X predictions prediction probas probabilities,
    model w = Some m /\ label_encoder w = Some le
    /\ predict m X = Ok predictions
    /\ index0 predictions = Ok prediction
    /\ predict_proba m X = Ok probas
    /\ index0 probas = Ok probabilities
    /\ (0 <= prediction < Z.of_nat (length probabilities))%Z
    /\ (length probabilities <= length (classes_ le))%nat
    /\ nth_error (classes_ le) (Z.to_nat prediction) = Some (emotion resp)
    /\ nth_error probabilities (Z.to_nat prediction)
       = Some (confidence resp).
Proof.
  intros Hrun Hvalid.
  destruct (successful_request file w Hrun Hvalid)
    as (m & le & s & Hm & Hle & _ & _ & Hok & _ & _).
  destruct Hok as (X & predictions & prediction & probas & probabilities
                   & decoded & Hp & Hp0 & Hpp & Hpp0 & Hinv & Hemo & Hconf
                   & Hall & _ & _).
  destruct (inverse_transform_one _ _ Hinv Hemo) as [Hpos Hlabel].
  apply getitem_nonneg in Hconf; [| exact Hpos].
  destruct (@all_probs_of_listed F le probabilities 0 []
              (all_probabilities resp)) as [Hlen _];
    [intros key [] | lia | exact Hall |].
  exists m, le, X, predictions, prediction, probas, probabilities.
  repeat (split; [assumption |]).
  split; [| auto].
  split; [exact Hpos |].
  assert (Hlt : (Z.to_nat prediction < length probabilities)%nat).
  { apply nth_error_Some. congruence. }
  lia.
Qed.

(** X8.  In a successful response (labels pairwise distinct) every
    label is mapped to the classifier's probability at the label's own
    index, and a label beyond the probability vector is not a key. *)
Theorem mapping_follows_label_order (file : UploadFile) (w w' : World F)
    (m : Classifier F) (le : LabelEncoder) (resp : PredictionResponse F) :
  model w = Some m ->
  label_encoder w = Some le ->
  NoDup (classes_ le) ->
  predict_emotion file w = (Ok resp, w') ->
  valid resp = true ->
  exists X probas probabilities,
    predict_proba m X = Ok probas
    /\ index0 probas = Ok probabilities
    /\ forall i label,
         nth_error (classes_ le) i = Some label ->
         dict_get (all_probabilities resp) label = nth_error probabilities i.
Proof.
  intros Hm Hle Hnd Hrun Hvalid.
  destruct (successful_request file w Hrun Hvalid)
    as (m0 & le0 & s & Hm0 & Hle0 & _ & _ & Hok & _ & _).
  rewrite Hm in Hm0. rewrite Hle in Hle0.
  inversion Hm0. inversion Hle0. subst m0 le0.
  destruct Hok as (X & predictions & prediction & probas & probabilities
                   & decoded & _ & _ & Hpp & Hpp0 & _ & _ & _
                   & Hall & _ & _).
  destruct (all_probs_of_spec _ _ Hnd Hall) as (Hlen & Hkeys & Hvalues).
  exists X, probas, probabilities. repeat (split; [assumption |]).
  intros i label Hnth.
  destruct (Nat.lt_ge_cases i (length probabilities)) as [Hlt | Hge].
  - destruct (nth_error probabilities i) as [p |] eqn:Hp.
    2:{ apply nth_error_Some in Hlt. congruence. }
    apply dict_get_nth with (j := i).
    + rewrite Hkeys. now apply NoDup_firstn_prefix.
    + rewrite Hkeys, nth_error_firstn.
      apply Nat.ltb_lt in Hlt. now rewrite Hlt.
    + now rewrite Hvalues.
  - replace (nth_error probabilities i) with (@None F)
      by (symmetry; now apply nth_error_None).
    apply dict_get_absent. rewrite Hkeys.
    now apply (nth_error_not_in_shorter_prefix Hnd Hnth).
Qed.

(** X9.  Bytes that [librosa.load] cannot decode are answered as
    invalid audio, with the same message as a clip that is too quiet,
    after the load alone. *)
Theorem undecodable_bytes_are_invalid_audio (file : UploadFile)
    (w : World F) (m : Classifier F) (le : LabelEncoder) (s : Scaler F)
    (e : exn) :
  model w = Some m -> label_encoder w = Some le -> scaler w = Some s ->
  endswith (filename file) ".wav" = true ->
  librosa_decode (content file) = Raise e ->
  exists w',
    predict_emotion file w
    = (Ok (failure
         "Invalid audio: File is too quiet, corrupted, or not a valid audio format"),
       w')
    /\ calls w' = calls w ++ [LibrosaLoad (tmp_name w ++ ".wav")%string].
Proof.
  intros Hm Hle Hs Hwav Hdecode.
  destruct (predict_emotion_run file w Hm Hle Hs Hwav)
    as (resp & w' & Hrun & _ & Hcases).
  assert (Hext : fst (extract_features (tmp_name w ++ ".wav")
                        (snd (write_file (tmp_name w ++ ".wav")
                                (content file) w))) = Ok None).
  { unfold extract_features. rewrite bind_run, preprocess_audio_run.
    unfold write_file, bind, get, set_files. cbn [snd files].
    now rewrite String.eqb_refl, Hdecode. }
  rewrite Hext in Hcases. destruct Hcases as [-> Hcalls].
  exists w'. auto.
Qed.

(** X10.  When [librosa.feature.mfcc] raises on the preprocessed
    waveform, the response is a processing error that carries the
    library's message. *)
Theorem mfcc_error_is_reported (file : UploadFile) (w : World F)
    (m : Classifier F) (le : LabelEncoder) (s : Scaler F)
    (audio : list F) (e : exn) :
  model w = Some m -> label_encoder w = Some le -> scaler w = Some s ->
  endswith (filename file) ".wav" = true ->
  librosa_decode (content file) = Ok audio ->
  fltb (audio_energy audio) (of_Q MIN_AUDIO_ENERGY) = false ->
  (forall out, normalize_amplitude (fix_length audio) = Ok out ->
     librosa_mfcc out SAMPLE_RATE N_MFCC = Raise e) ->
  exists w',
    predict_emotion file w
    = (Ok (failure ("Processing error: " ++ str e)%string), w').
Proof.
  intros Hm Hle Hs Hwav Hdecode Hloud Hmfcc.
  destruct (predict_emotion_run file w Hm Hle Hs Hwav)
    as (resp & w' & Hrun & _ & Hcases).
  destruct (normalize_fix_length_returns audio) as (out & Hout & _).
  assert (Hext : fst (extract_features (tmp_name w ++ ".wav")
                        (snd (write_file (tmp_name w ++ ".wav")
                                (content file) w))) = Raise e).
  { unfold extract_features. rewrite bind_run, preprocess_audio_run.
    unfold write_file, bind, get, set_files. cbn [snd files].
    rewrite String.eqb_refl, Hdecode, Hloud, Hout.
    unfold call. now rewrite (Hmfcc out Hout). }
  rewrite Hext in Hcases. subst resp. exists w'. exact Hrun.
Qed.

(** X11.  A load that fails leaves the service shut: from a fresh
    process, when [joblib.load] raises for one of the three files,
    [load_models] raises, and afterwards every request raises the 500
    "Models not loaded" and changes nothing, although the globals
    loaded before the failure are assigned. *)
Theorem failed_startup_serves_nothing (w : World F) (e : exn) :
  model w = None -> label_encoder w = None -> scaler w = None ->
  emotion_classifier_joblib (models w) = Raise e
  \/ label_encoder_joblib (models w) = Raise e
  \/ scaler_joblib (models w) = Raise e ->
  exists e' w',
    load_models w = (Raise e', w')
    /\ forall file,
         predict_emotion file w'
         = (Raise (HTTPException 500 "Models not loaded"), w').
Proof.
  intros Hm Hle Hs Hload.
  assert (Hrun : exists e' w',
    load_models w = (Raise e', w')
    /\ (model w' = None \/ label_encoder w' = None \/ scaler w' = None)).
  { unfold load_models, try_except, bind, get, lift, raise, ret,
      set_model, set_label_encoder, set_scaler.
    destruct (emotion_classifier_joblib (models w)) as [c | e1]; cbn.
    - destruct (label_encoder_joblib (models w)) as [le' | e2]; cbn.
      + destruct (scaler_joblib (models w)) as [s' | e3]; cbn.
        * destruct Hload as [Hl | [Hl | Hl]]; discriminate.
        * eexists _, _. split; [reflexivity |]. cbn. auto.
      + eexists _, _. split; [reflexivity |]. cbn. auto.
    - eexists _, _. split; [reflexivity |]. auto. }
  destruct Hrun as (e' & w' & Hrun & Hnone).
  exists e', w'. split; [exact Hrun |]. intros file.
  unfold predict_emotion. rewrite bind_run. unfold get.
  destruct Hnone as [Hn | [Hn | Hn]]; rewrite Hn.
  - reflexivity.
  - destruct (model w'); reflexivity.
  - destruct (model w'); [destruct (label_encoder w') |]; reflexivity.
Qed.

(** X12.  After a startup that succeeded, [get_emotions] lists exactly
    the labels stored in the label encoder file, in their order, with
    their number as count. *)
Theorem startup_lists_labels (w w' : World F) :
  load_models w = (Ok tt, w') ->
  exists le,
    label_encoder_joblib (models w) = Ok le
    /\ get_emotions w'
       = (Ok {| emotions := classes_ le;
                count := Z.of_nat (length (classes_ le)) |}, w').
Proof.
  unfold load_models, try_except, bind, get, lift, raise, ret,
    set_model, set_label_encoder, set_scaler.
  destruct (emotion_classifier_joblib (models w)) as [c | e1]; cbn;
    [| discriminate].
  destruct (label_encoder_joblib (models w)) as [le | e2]; cbn;
    [| discriminate].
  destruct (scaler_joblib (models w)) as [s | e3]; cbn; [| discriminate].
  destruct (announce le) as [[] | e4]; cbn; [| discriminate].
  intros Hload. inversion Hload. subst w'. exists le.
  split; reflexivity.
Qed.

(** X13.  Length normalisation is idempotent. *)
Theorem fix_length_idempotent (audio : list F) :
  fix_length (fix_length audio) = fix_length audio.
Proof.
  rewrite (fix_length_long (fix_length audio))
    by (rewrite fix_length_length; apply Nat.le_refl).
  apply firstn_all2. rewrite fix_length_length. apply Nat.le_refl.
Qed.
End Answers.

(** In exact arithmetic, peak normalisation of a waveform whose peak
    is not zero brings every sample into [-1, 1] and the peak to
    exactly 1. *)
Lemma normalized_rationals_within_unit (audio : list Qc) (peak : Qc) :
  np_max (np_abs audio) = Ok peak ->
  peak <> Q2Qc 0 ->
  exists once,
    normalize_amplitude audio = Ok once
    /\ np_max (np_abs once) = Ok (Q2Qc 1)
    /\ forall x, In x once -> (- Q2Qc 1 <= x /\ x <= Q2Qc 1)%Qc.
Proof.
  intros Hpeak Hnz.
  assert (Hpos : fltb fzero peak = true).
  { apply Qc_ltb_lt.
    destruct (Qcle_lt_or_eq _ _ (peak_nonnegative _ Hpeak)) as [Hlt | Heq];
      [exact Hlt | exfalso; apply Hnz; symmetry; exact Heq]. }
  assert (Hone : np_max (np_abs (map (fun x => fdiv x peak) audio))
                 = Ok (Q2Qc 1)).
  { rewrite np_max_abs_div with (peak := peak);
      [| exact Qc_abs_div | exact Qc_maximum_div | exact Hpos | exact Hpeak].
    rewrite Qc_div_self by exact Hpos. reflexivity. }
  exists (map (fun x => fdiv x peak) audio). split; [| split].
  - unfold normalize_amplitude, rbind. now rewrite Hpeak, Hpos.
  - exact Hone.
  - intros x Hin. apply Qcabs_Qcle_condition.
    eapply np_max_abs_upper; [exact Hone | exact Hin].
Qed.

(** X14.  On [float32], peak normalisation of a waveform whose peak is
    greater than zero and finite brings the peak to exactly 1 and
    every sample into [-1, 1]; no rounding of a quotient leaves the
    interval. *)
Theorem normalized_samples_within_unit
    (audio : list spec_float) (peak : spec_float) :
  Forall (fun x => valid_binary 24 128 x = true) audio ->
  np_max (np_abs audio) = Ok peak ->
  fltb fzero peak = true ->
  peak <> S754_infinity false ->
  exists once,
    normalize_amplitude audio = Ok once
    /\ np_max (np_abs once) = Ok fone
    /\ forall x, In x once ->
         SFleb (float32_of_Z (-1)) x = true
         /\ SFleb x (float32_of_Z 1) = true.
Proof.
  intros Hvalid Hpeak Hpos Hfin.
  destruct (zero_below_peak _ Hpos) as [-> | (mp & ep & ->)];
    [now contradiction Hfin |].
  destruct (divide_by_finite_peak Hvalid Hpeak) as [Hone Hquot].
  exists (map (fun x => fdiv x (S754_finite false mp ep)) audio).
  split; [| split].
  - unfold normalize_amplitude, rbind. now rewrite Hpeak.
  - exact Hone.
  - intros y Hy. apply in_map_iff in Hy. destruct Hy as (x & <- & Hx).
    rewrite Forall_forall in Hquot.
    apply magnitude_at_most_one, Hquot, Hx.
Qed.

(** X15.  The two display tables of the frontend have the same keys: an
    emotion is shown with the fallback emoji exactly when it is shown
    in the fallback colour, whatever its case. *)
Theorem fallback_emoji_iff_fallback_color (lower : string -> string)
    (emotion : string) :
  get_emotion_emoji lower emotion = "🎭"
  <-> get_emotion_color lower emotion = "#808080".
Proof.
  unfold get_emotion_emoji, get_emotion_color, dict_get_default,
    emoji_map, color_map.
  generalize (lower emotion) as k. intros k. cbn [dict_get].
  repeat match goal with
         | |- context [String.eqb ?a k] =>
             destruct (String.eqb a k); [split; intros; discriminate |]
         end.
  split; reflexivity.
Qed.

(** ** The further properties at work *)

Section FurtherAtWork.
Import Demo.

Example emoji_of_upper_case_label :
  get_emotion_emoji Cases.ascii_lower "HAPPY" = "😊"
  /\ get_emotion_color Cases.ascii_lower "Happy" = "#FFD700"
  /\ get_emotion_emoji Cases.ascii_lower "bored" = "🎭".
Proof. repeat split. Qed.

Lemma temporary_file_is_removed_witness :
  model (serving_later classifier8) = Some classifier8
  /\ label_encoder (serving_later classifier8) = Some labels8
  /\ scaler (serving_later classifier8) = Some identity_scaler
  /\ endswith (filename speech) ".wav" = true
  /\ exists resp w',
       predict_emotion speech (serving_later classifier8) = (Ok resp, w')
       /\ files w' (tmp_name (serving_later classifier8) ++ ".wav")%string
          = None
       /\ forall p,
            p <> (tmp_name (serving_later classifier8) ++ ".wav")%string ->
            files w' p = files (serving_later classifier8) p.
Proof.
  repeat (split; [reflexivity |]).
  exact (temporary_file_is_removed speech (serving_later classifier8)
           eq_refl eq_refl eq_refl eq_refl).
Defined.

Lemma wrong_format_is_refused_untouched_witness :
  model (serving classifier8) = Some classifier8
  /\ label_encoder (serving classifier8) = Some labels8
  /\ scaler (serving classifier8) = Some identity_scaler
  /\ endswith (filename Cases.mp3) ".wav" = false
  /\ predict_emotion Cases.mp3 (serving classifier8)
     = (Ok (failure "Invalid file format. Please upload a .wav file"),
        serving classifier8).
Proof.
  repeat (split; [reflexivity |]).
  exact (wrong_format_is_refused_untouched Cases.mp3 (serving classifier8)
           eq_refl eq_refl eq_refl eq_refl).
Defined.

Lemma reported_labels_are_listed_witness :
  exists resp w',
    predict_emotion speech (serving classifier6) = (Ok resp, w')
    /\ valid resp = true
    /\ exists listing,
         get_emotions w' = (Ok listing, w')
         /\ In (emotion resp) (emotions listing)
         /\ (forall key, In key (dict_keys (all_probabilities resp)) ->
               In key (emotions listing))
         /\ count listing = Z.of_nat (length (emotions listing)).
Proof.
  assert (Hrun : exists resp w',
    predict_emotion speech (serving classifier6) = (Ok resp, w')
    /\ valid resp = true)
    by (eexists _, _; split; [vm_compute; reflexivity | reflexivity]).
  destruct Hrun as (resp & w' & Hrun & Hvalid).
  exists resp, w'. split; [exact Hrun |]. split; [exact Hvalid |].
  exact (reported_labels_are_listed speech (serving classifier6)
           Hrun Hvalid).
Defined.

Lemma success_calls_each_stage_once_witness :
  exists resp w',
    predict_emotion speech (serving_later classifier8) = (Ok resp, w')
    /\ valid resp = true
    /\ calls w'
       = calls (serving_later classifier8)
         ++ [LibrosaLoad (tmp_name (serving_later classifier8) ++ ".wav");
             LibrosaMfcc; LibrosaDelta 1; LibrosaDelta 2; ScalerTransform;
             ModelPredict; ModelPredictProba].
Proof.
  assert (Hrun : exists resp w',
    predict_emotion speech (serving_later classifier8) = (Ok resp, w')
    /\ valid resp = true)
    by (eexists _, _; split; [vm_compute; reflexivity | reflexivity]).
  destruct Hrun as (resp & w' & Hrun & Hvalid).
  exists resp, w'. split; [exact Hrun |]. split; [exact Hvalid |].
  exact (success_calls_each_stage_once speech (serving_later classifier8)
           Hrun Hvalid).
Defined.

Lemma loud_audio_is_preprocessed_witness :
  files (serving_later classifier8) "/tmp/clip.wav" = Some (content speech)
  /\ librosa_decode (content speech)
     = Ok [0.5; -0.5; 0.9921875; -1; 0]%float
  /\ fltb (audio_energy [0.5; -0.5; 0.9921875; -1; 0]%float)
          (of_Q MIN_AUDIO_ENERGY) = false
  /\ exists out,
       preprocess_audio "/tmp/clip.wav" (serving_later classifier8)
       = (Ok (Some out),
          record_call (LibrosaLoad "/tmp/clip.wav")
            (serving_later classifier8))
       /\ normalize_amplitude
            (fix_length [0.5; -0.5; 0.9921875; -1; 0]%float) = Ok out
       /\ length out = target_length.
Proof.
  assert (Hfile : files (serving_later classifier8) "/tmp/clip.wav"
                  = Some (content speech)) by reflexivity.
  assert (Hdec : librosa_decode (content speech)
                 = Ok [0.5; -0.5; 0.9921875; -1; 0]%float)
    by (vm_compute; reflexivity).
  assert (Hloud : fltb (audio_energy [0.5; -0.5; 0.9921875; -1; 0]%float)
                       (of_Q MIN_AUDIO_ENERGY) = false)
    by (vm_compute; reflexivity).
  repeat (split; [assumption |]).
  exact (loud_audio_is_preprocessed "/tmp/clip.wav"
           (serving_later classifier8) Hfile Hdec Hloud).
Defined.

Lemma success_needs_indices_in_range_witness :
  exists resp w',
    predict_emotion speech (serving classifier6) = (Ok resp, w')
    /\ valid resp = true
    /\ exists m le X predictions prediction probas probabilities,
         model (serving classifier6) = Some m
         /\ label_encoder (serving classifier6) = Some le
         /\ predict m X = Ok predictions
         /\ index0 predictions = Ok prediction
         /\ predict_proba m X = Ok probas
         /\ index0 probas = Ok probabilities
         /\ (0 <= prediction < Z.of_nat (length probabilities))%Z
         /\ (length probabilities <= length (classes_ le))%nat
         /\ nth_error (classes_ le) (Z.to_nat prediction)
            = Some (emotion resp)
         /\ nth_error probabilities (Z.to_nat prediction)
            = Some (confidence resp).
Proof.
  assert (Hrun : exists resp w',
    predict_emotion speech (serving classifier6) = (Ok resp, w')
    /\ valid resp = true)
    by (eexists _, _; split; [vm_compute; reflexivity | reflexivity]).
  destruct Hrun as (resp & w' & Hrun & Hvalid).
  exists resp, w'. split; [exact Hrun |]. split; [exact Hvalid |].
  exact (success_needs_indices_in_range speech (serving classifier6)
           Hrun Hvalid).
Defined.

Lemma mapping_follows_label_order_witness :
  model (serving classifier6) = Some classifier6
  /\ label_encoder (serving classifier6) = Some labels8
  /\ NoDup (classes_ labels8)
  /\ exists resp w',
       predict_emotion speech (serving classifier6) = (Ok resp, w')
       /\ valid resp = true
       /\ exists X probas probabilities,
            predict_proba classifier6 X = Ok probas
            /\ index0 probas = Ok probabilities
            /\ forall i label,
                 nth_error (classes_ labels8) i = Some label ->
                 dict_get (all_probabilities resp) label
                 = nth_error probabilities i.
Proof.
  split; [reflexivity |]. split; [reflexivity |].
  split; [exact labels8_distinct |].
  assert (Hrun : exists resp w',
    predict_emotion speech (serving classifier6) = (Ok resp, w')
    /\ valid resp = true)
    by (eexists _, _; split; [vm_compute; reflexivity | reflexivity]).
  destruct Hrun as (resp & w' & Hrun & Hvalid).
  exists resp, w'. split; [exact Hrun |]. split; [exact Hvalid |].
  exact (mapping_follows_label_order speech (serving classifier6)
           (eq_refl : model (serving classifier6) = Some classifier6)
           (eq_refl : label_encoder (serving classifier6) = Some labels8)
           labels8_distinct Hrun Hvalid).
Defined.

Lemma undecodable_bytes_are_invalid_audio_witness :
  model (serving classifier8) = Some classifier8
  /\ label_encoder (serving classifier8) = Some labels8
  /\ scaler (serving classifier8) = Some identity_scaler
  /\ endswith (filename garbage) ".wav" = true
  /\ librosa_decode (content garbage)
     = Raise (Exception "Error opening file: Format not recognised.")
  /\ exists w',
       predict_emotion garbage (serving classifier8)
       = (Ok (failure
            "Invalid audio: File is too quiet, corrupted, or not a valid audio format"),
          w')
       /\ calls w'
          = calls (serving classifier8)
            ++ [LibrosaLoad (tmp_name (serving classifier8) ++ ".wav")%string].
Proof.
  repeat (split; [reflexivity |]).
  exact (undecodable_bytes_are_invalid_audio garbage (serving classifier8)
           eq_refl eq_refl eq_refl eq_refl eq_refl).
Defined.

Lemma mfcc_error_is_reported_witness :
  model (serving classifier8) = Some classifier8
  /\ label_encoder (serving classifier8) = Some labels8
  /\ scaler (serving classifier8) = Some identity_scaler
  /\ endswith (filename speech) ".wav" = true
  /\ @librosa_decode float Cases.librosa_mfcc_raises (content speech)
     = Ok [0.5; -0.5; 0.9921875; -1; 0]%float
  /\ fltb (audio_energy [0.5; -0.5; 0.9921875; -1; 0]%float)
          (of_Q MIN_AUDIO_ENERGY) = false
  /\ (forall out,
        normalize_amplitude
          (fix_length [0.5; -0.5; 0.9921875; -1; 0]%float) = Ok out ->
        @librosa_mfcc float Cases.librosa_mfcc_raises out SAMPLE_RATE N_MFCC
        = Raise (Exception "Audio buffer is not finite everywhere"))
  /\ exists w',
       @predict_emotion float float_ops float_sqrt Cases.librosa_mfcc_raises
         speech (serving classifier8)
       = (Ok (failure
            "Processing error: Audio buffer is not finite everywhere"),
          w').
Proof.
  assert (Hdec : @librosa_decode float Cases.librosa_mfcc_raises
                   (content speech)
                 = Ok [0.5; -0.5; 0.9921875; -1; 0]%float)
    by (vm_compute; reflexivity).
  assert (Hloud : fltb (audio_energy [0.5; -0.5; 0.9921875; -1; 0]%float)
                       (of_Q MIN_AUDIO_ENERGY) = false)
    by (vm_compute; reflexivity).
  assert (Hmfcc : forall out,
    normalize_amplitude
      (fix_length [0.5; -0.5; 0.9921875; -1; 0]%float) = Ok out ->
    @librosa_mfcc float Cases.librosa_mfcc_raises out SAMPLE_RATE N_MFCC
    = Raise (Exception "Audio buffer is not finite everywhere"))
    by (intros; reflexivity).
  repeat (split; [reflexivity || assumption |]).
  exact (@mfcc_error_is_reported float float_ops float_sqrt
           Cases.librosa_mfcc_raises speech (serving classifier8)
           classifier8 labels8 identity_scaler _ _
           eq_refl eq_refl eq_refl eq_refl Hdec Hloud Hmfcc).
Defined.

Lemma failed_startup_serves_nothing_witness :
  model Cases.at_boot_without_scaler = None
  /\ label_encoder Cases.at_boot_without_scaler = None
  /\ scaler Cases.at_boot_without_scaler = None
  /\ (emotion_classifier_joblib (models Cases.at_boot_without_scaler)
      = Raise (Exception "No such file or directory")
      \/ label_encoder_joblib (models Cases.at_boot_without_scaler)
         = Raise (Exception "No such file or directory")
      \/ scaler_joblib (models Cases.at_boot_without_scaler)
         = Raise (Exception "No such file or directory"))
  /\ exists e' w',
       load_models Cases.at_boot_without_scaler = (Raise e', w')
       /\ forall file,
            predict_emotion file w'
            = (Raise (HTTPException 500 "Models not loaded"), w').
Proof.
  repeat (split; [reflexivity |]).
  split; [right; right; reflexivity |].
  exact (failed_startup_serves_nothing Cases.at_boot_without_scaler
           eq_refl eq_refl eq_refl
           (or_intror (or_intror eq_refl))).
Defined.

Lemma startup_lists_labels_witness :
  load_models (at_boot classifier8) = (Ok tt, serving classifier8)
  /\ exists le,
       label_encoder_joblib (models (at_boot classifier8)) = Ok le
       /\ get_emotions (serving classifier8)
          = (Ok {| emotions := classes_ le;
                   count := Z.of_nat (length (classes_ le)) |},
             serving classifier8).
Proof.
  split; [reflexivity |].
  exact (startup_lists_labels (at_boot classifier8)
           (eq_refl : load_models (at_boot classifier8)
                      = (Ok tt, serving classifier8))).
Defined.

Lemma normalized_samples_within_unit_witness :
  Forall (fun x => valid_binary 24 128 x = true) samples32
  /\ np_max (np_abs samples32) = Ok (float32_of_Z 49)
  /\ fltb fzero (float32_of_Z 49) = true
  /\ float32_of_Z 49 <> S754_infinity false
  /\ exists once,
       normalize_amplitude samples32 = Ok once
       /\ np_max (np_abs once) = Ok fone
       /\ forall x, In x once ->
            SFleb (float32_of_Z (-1)) x = true
            /\ SFleb x (float32_of_Z 1) = true.
Proof.
  assert (Hvalid : Forall (fun x => valid_binary 24 128 x = true) samples32)
    by (repeat constructor).
  assert (Hpeak : np_max (np_abs samples32) = Ok (float32_of_Z 49))
    by reflexivity.
  assert (Hpos : fltb fzero (float32_of_Z 49) = true) by reflexivity.
  assert (Hfin : float32_of_Z 49 <> S754_infinity false) by discriminate.
  split; [exact Hvalid |]. split; [exact Hpeak |]. split; [exact Hpos |].
  split; [exact Hfin |].
  exact (normalized_samples_within_unit Hvalid Hpeak Hpos Hfin).
Defined.
End FurtherAtWork.
